(** * HashGate Python sample client: the request signer of [hmac_client.py]

    A shallow embedding of [HmacClient], the class that signs outgoing HTTP
    requests with HMAC-SHA256, together with the parts of the Python runtime
    it calls ([str], [bytes], [hashlib], [hmac], [base64], [urllib.parse],
    [time]), and the properties its design document states about it. *)

From Stdlib Require Import ZArith NArith QArith Lia.
From Stdlib Require Import Strings.String Strings.Ascii Strings.Byte DecimalString.
From Stdlib Require DecimalPos.
From stdpp Require Import base option list gmap.

Local Open Scope Z_scope.

(** ** Python values *)

(** A [str] is a sequence of Unicode code points, a [bytes] object a sequence
    of octets. *)
Abbreviation pystr := (list N).
Abbreviation bytes := (list byte).

(** The exceptions the modelled calls can raise. *)
Inductive exn : Set :=
  | UnicodeEncodeError
  | UnicodeDecodeError
  | ValueError.

(** A call either returns a value or raises. *)
Inductive result (A : Type) : Type :=
  | Ok (a : A)
  | Raise (e : exn).
Arguments Ok {A} a.
Arguments Raise {A} e.

#[global] Instance result_ret : MRet result := fun A a => Ok a.
#[global] Instance result_bind : MBind result := fun A B f m =>
  match m with
  | Ok a => f a
  | Raise e => Raise e
  end.
#[global] Instance result_fmap : FMap result := fun A B f m =>
  match m with
  | Ok a => Ok (f a)
  | Raise e => Raise e
  end.

Definition returns {A} (m : result A) : bool :=
  match m with
  | Ok _ => true
  | Raise _ => false
  end.

(** A string literal of the source, character by character.  All literals
    of [hmac_client.py] are ASCII. *)
Definition lit (s : string) : pystr :=
  map N_of_ascii (list_ascii_of_string s).

Definition byte_of_N (n : N) : byte :=
  default x00 (Byte.of_N (n mod 256)).

Definition bytes_lit (s : string) : bytes :=
  list_byte_of_string s.

(** The six components [urllib.parse.urlparse] returns. *)
Record ParseResult : Set := {
  scheme : pystr;
  netloc : pystr;
  path : pystr;
  params : pystr;
  query : pystr;
  fragment : pystr
}.

(** The library behaviour the client relies on without fixing it: URL
    parsing, which raises [ValueError] on some inputs, and the case table
    of the Unicode character database, which gives the full upper-case
    mapping of a code point outside ASCII. *)
Class Runtime : Type := {
  urlparse : pystr -> result ParseResult;
  toupper_full : N -> pystr
}.

Module Py.

Definition upper_cp {rt : Runtime} (c : N) : pystr :=
  if (0x61 <=? c)%N && (c <=? 0x7A)%N then [(c - 0x20)%N]
  else if (c <? 0x80)%N then [c]
  else toupper_full c.

(** [s.upper()] *)
Definition upper {rt : Runtime} (s : pystr) : pystr := flat_map upper_cp s.

(** [sep.join(parts)] *)
Fixpoint join (sep : pystr) (parts : list pystr) : pystr :=
  match parts with
  | [] => []
  | [p] => p
  | p :: rest => p ++ sep ++ join sep rest
  end.

(** [s.rstrip(c)] for a one-character [c]: every trailing [c] goes. *)
Fixpoint rstrip (c : N) (s : pystr) : pystr :=
  match s with
  | [] => []
  | x :: s' =>
      match rstrip c s' with
      | [] => if N.eqb x c then [] else [x]
      | r => x :: r
      end
  end.

Fixpoint startswith (s prefix : pystr) : bool :=
  match prefix, s with
  | [], _ => true
  | _ :: _, [] => false
  | p :: prefix', x :: s' => N.eqb x p && startswith s' prefix'
  end.

(** [needle in hay] *)
Fixpoint contains (needle hay : pystr) : bool :=
  startswith hay needle ||
  match hay with
  | [] => false
  | _ :: hay' => contains needle hay'
  end.

(** [bool(s)] for a [str]: only the empty string is falsy. *)
Definition truthy (s : pystr) : bool :=
  match s with
  | [] => false
  | _ :: _ => true
  end.

(** [bool(o)] for an [Optional[str]]: [None] and [""] are falsy. *)
Definition truthy_opt (o : option pystr) : bool :=
  match o with
  | None => false
  | Some s => truthy s
  end.

(** Code points that UTF-8 can carry: everything up to U+10FFFF except
    the surrogates U+D800..U+DFFF. *)
Definition scalar (c : N) : bool :=
  (c <? 0xD800)%N || ((0xDFFF <? c)%N && (c <? 0x110000)%N).

Definition encodable (s : pystr) : bool := forallb scalar s.

Definition utf8_encode_cp (c : N) : result bytes :=
  if (c <? 0x80)%N then Ok [byte_of_N c]
  else if (c <? 0x800)%N then
    Ok [byte_of_N (N.lor 0xC0 (N.shiftr c 6));
        byte_of_N (N.lor 0x80 (N.land c 0x3F))]
  else if (c <? 0x10000)%N then
    if (0xD800 <=? c)%N && (c <=? 0xDFFF)%N then Raise UnicodeEncodeError
    else
      Ok [byte_of_N (N.lor 0xE0 (N.shiftr c 12));
          byte_of_N (N.lor 0x80 (N.land (N.shiftr c 6) 0x3F));
          byte_of_N (N.lor 0x80 (N.land c 0x3F))]
  else if (c <? 0x110000)%N then
    Ok [byte_of_N (N.lor 0xF0 (N.shiftr c 18));
        byte_of_N (N.lor 0x80 (N.land (N.shiftr c 12) 0x3F));
        byte_of_N (N.lor 0x80 (N.land (N.shiftr c 6) 0x3F));
        byte_of_N (N.lor 0x80 (N.land c 0x3F))]
  else Raise UnicodeEncodeError.

(** [s.encode('utf-8')], strict: a lone surrogate raises. *)
Fixpoint utf8_encode (s : pystr) : result bytes :=
  match s with
  | [] => Ok []
  | c :: s' =>
      b ← utf8_encode_cp c;
      rest ← utf8_encode s';
      Ok (b ++ rest)
  end.

Definition continuation (b : byte) : bool :=
  (N.land (Byte.to_N b) 0xC0 =? 0x80)%N.

Definition low6 (b : byte) : N := N.land (Byte.to_N b) 0x3F.

(** [b.decode('utf-8')], strict: overlong forms, surrogates and truncated
    sequences raise. *)
Fixpoint utf8_decode (bs : bytes) : result pystr :=
  match bs with
  | [] => Ok []
  | b0 :: r0 =>
      let c0 := Byte.to_N b0 in
      if (c0 <? 0x80)%N then cons c0 <$> utf8_decode r0
      else if (0xC2 <=? c0)%N && (c0 <? 0xE0)%N then
        match r0 with
        | b1 :: r1 =>
            if continuation b1
            then cons (N.lor (N.shiftl (N.land c0 0x1F) 6) (low6 b1))
                   <$> utf8_decode r1
            else Raise UnicodeDecodeError
        | _ => Raise UnicodeDecodeError
        end
      else if (0xE0 <=? c0)%N && (c0 <? 0xF0)%N then
        match r0 with
        | b1 :: b2 :: r2 =>
            let c := N.lor (N.shiftl (N.land c0 0x0F) 12)
                       (N.lor (N.shiftl (low6 b1) 6) (low6 b2)) in
            if continuation b1 && continuation b2
               && (0x800 <=? c)%N && scalar c
            then cons c <$> utf8_decode r2
            else Raise UnicodeDecodeError
        | _ => Raise UnicodeDecodeError
        end
      else if (0xF0 <=? c0)%N && (c0 <? 0xF5)%N then
        match r0 with
        | b1 :: b2 :: b3 :: r3 =>
            let c := N.lor (N.shiftl (N.land c0 0x07) 18)
                       (N.lor (N.shiftl (low6 b1) 12)
                          (N.lor (N.shiftl (low6 b2) 6) (low6 b3))) in
            if continuation b1 && continuation b2 && continuation b3
               && (0x10000 <=? c)%N && scalar c
            then cons c <$> utf8_decode r3
            else Raise UnicodeDecodeError
        | _ => Raise UnicodeDecodeError
        end
      else Raise UnicodeDecodeError
  end.

Definition is_ascii (b : byte) : bool := (Byte.to_N b <? 0x80)%N.

(** The text whose characters are the given ASCII octets: what
    [decode] yields on them. *)
Definition ascii_str (bs : bytes) : pystr := map Byte.to_N bs.

(** [int(x)] for a finite float, which truncates towards zero.  A clock
    reading is a finite binary fraction, here a rational. *)
Definition int (x : Q) : Z := Z.quot (Qnum x) (Z.pos (Qden x)).

(** [str(n)] for an [int]: decimal digits, a leading minus sign when
    negative. *)
Definition str (n : Z) : pystr := lit (NilZero.string_of_int (Z.to_int n)).

End Py.

(** ** [hashlib.sha256] (FIPS 180-4) *)

Module SHA256.

Definition mask32 : Z := 2 ^ 32 - 1.

Definition add32 (x y : Z) : Z := Z.land (x + y) mask32.

Definition rotr (n x : Z) : Z :=
  Z.lor (Z.shiftr x n) (Z.land (Z.shiftl x (32 - n)) mask32).

Definition Ch (x y z : Z) : Z :=
  Z.lxor (Z.land x y) (Z.land (Z.lxor x mask32) z).

Definition Maj (x y z : Z) : Z :=
  Z.lxor (Z.lxor (Z.land x y) (Z.land x z)) (Z.land y z).

Definition Sigma0 (x : Z) : Z :=
  Z.lxor (Z.lxor (rotr 2 x) (rotr 13 x)) (rotr 22 x).

Definition Sigma1 (x : Z) : Z :=
  Z.lxor (Z.lxor (rotr 6 x) (rotr 11 x)) (rotr 25 x).

Definition sigma0 (x : Z) : Z :=
  Z.lxor (Z.lxor (rotr 7 x) (rotr 18 x)) (Z.shiftr x 3).

Definition sigma1 (x : Z) : Z :=
  Z.lxor (Z.lxor (rotr 17 x) (rotr 19 x)) (Z.shiftr x 10).

(** The constants are the leading 32 fraction bits of the square roots
    (initial hash value) and cube roots (round constants) of the first
    primes; they are derived here rather than transcribed. *)
Definition is_prime (n : Z) : bool :=
  forallb (fun d => negb (n mod Z.of_nat d =? 0)) (seq 2 (Z.to_nat n - 2)).

Definition primes : list Z :=
  Eval vm_compute in filter (fun n => is_prime n) (map Z.of_nat (seq 2 310)).

(** Largest [r] below [2 ^ bits] with [r ^ 3 <= n]. *)
Fixpoint cube_root (bits : nat) (n r : Z) : Z :=
  match bits with
  | O => r
  | S b =>
      let r' := r + 2 ^ Z.of_nat b in
      cube_root b n (if r' * r' * r' <=? n then r' else r)
  end.

Definition H0 : list Z :=
  Eval vm_compute in
    map (fun p => Z.land (Z.sqrt (p * 2 ^ 64)) mask32) (firstn 8 primes).

Definition K : list Z :=
  Eval vm_compute in
    map (fun p => Z.land (cube_root 40 (p * 2 ^ 96) 0) mask32) primes.

(** [v] as [n] octets, most significant first. *)
Fixpoint be_bytes (n : nat) (v : Z) : bytes :=
  match n with
  | O => []
  | S n' => byte_of_N (Z.to_N (Z.shiftr v (8 * Z.of_nat n'))) :: be_bytes n' v
  end.

Definition be_word (bs : bytes) : Z :=
  fold_left (fun acc b => Z.lor (Z.shiftl acc 8) (Z.of_N (Byte.to_N b))) bs 0.

(** Section 5.1.1: a one bit, zero bits up to 448 modulo 512, and the
    message length in bits as a 64-bit number. *)
Definition pad (msg : bytes) : bytes :=
  let len := Z.of_nat (length msg) in
  msg ++ [x80] ++ repeat x00 (Z.to_nat ((55 - len) mod 64))
      ++ be_bytes 8 (8 * len).

Definition slice {A} (start len : nat) (l : list A) : list A :=
  firstn len (skipn start l).

Definition blocks (padded : bytes) : list bytes :=
  map (fun i => slice (64 * i) 64 padded) (seq 0 (length padded / 64)).

Definition block_words (block : bytes) : list Z :=
  map (fun j => be_word (slice (4 * j) 4 block)) (seq 0 16).

(** Section 6.2.2 step 1: [w] holds W_0 .. W_(t-1); [n] more are added. *)
Fixpoint schedule (n : nat) (w : list Z) : list Z :=
  match n with
  | O => w
  | S n' =>
      let t := length w in
      let W i := nth (t - i) w 0 in
      schedule n'
        (w ++ [add32 (add32 (sigma1 (W 2%nat)) (W 7%nat))
                     (add32 (sigma0 (W 15%nat)) (W 16%nat))])
  end.

Record state : Set := State { a : Z; b : Z; c : Z; d : Z; e : Z; f : Z; g : Z; h : Z }.

Definition state_of (l : list Z) : state :=
  let n i := nth i l 0 in
  State (n 0%nat) (n 1%nat) (n 2%nat) (n 3%nat)
        (n 4%nat) (n 5%nat) (n 6%nat) (n 7%nat).

Definition words_of (s : state) : list Z :=
  [a s; b s; c s; d s; e s; f s; g s; h s].

(** Section 6.2.2 step 3. *)
Definition round (s : state) (kw : Z * Z) : state :=
  let T1 := add32 (add32 (add32 (h s) (Sigma1 (e s))) (Ch (e s) (f s) (g s)))
                  (add32 (fst kw) (snd kw)) in
  let T2 := add32 (Sigma0 (a s)) (Maj (a s) (b s) (c s)) in
  State (add32 T1 T2) (a s) (b s) (c s) (add32 (d s) T1) (e s) (f s) (g s).

Definition compress (hash : list Z) (block : bytes) : list Z :=
  let w := schedule 48 (block_words block) in
  let s := fold_left round (combine K w) (state_of hash) in
  zip_with add32 hash (words_of s).

(** [hashlib.sha256(msg).digest()] *)
Definition digest (msg : bytes) : bytes :=
  flat_map (be_bytes 4) (fold_left compress (blocks (pad msg)) H0).

End SHA256.

(** ** [hmac.new(key, msg, hashlib.sha256).digest()] (RFC 2104) *)

Module HMAC.

Definition block_size : nat := 64.

Definition xor_byte (p : N) (x : byte) : byte :=
  byte_of_N (N.lxor (Byte.to_N x) p).

(** Keys longer than a block are hashed first; the key is then filled
    with zeros to the block size. *)
Definition block_key (key : bytes) : bytes :=
  let k := if (block_size <? length key)%nat then SHA256.digest key else key in
  k ++ repeat x00 (block_size - length k).

Definition digest (key msg : bytes) : bytes :=
  let k := block_key key in
  SHA256.digest (map (xor_byte 0x5C) k
                   ++ SHA256.digest (map (xor_byte 0x36) k ++ msg)).

End HMAC.

(** ** [base64.b64encode] (RFC 4648, standard alphabet, padded) *)

Module Base64.

Definition alphabet : bytes :=
  bytes_lit "ABCDEFGHIJKLMNOPQRSTUVWXYZabcdefghijklmnopqrstuvwxyz0123456789+/".

Definition pad_char : byte := "=".

Definition sextet (n : N) : byte := nth (N.to_nat (N.land n 63)) alphabet pad_char.

Fixpoint b64encode (bs : bytes) : bytes :=
  match bs with
  | [] => []
  | [x] =>
      let x := Byte.to_N x in
      [sextet (N.shiftr x 2); sextet (N.shiftl x 4); pad_char; pad_char]
  | [x; y] =>
      let x := Byte.to_N x in
      let y := Byte.to_N y in
      [sextet (N.shiftr x 2);
       sextet (N.lor (N.shiftl x 4) (N.shiftr y 4));
       sextet (N.shiftl y 2);
       pad_char]
  | x :: y :: z :: rest =>
      let x := Byte.to_N x in
      let y := Byte.to_N y in
      let z := Byte.to_N z in
      [sextet (N.shiftr x 2);
       sextet (N.lor (N.shiftl x 4) (N.shiftr y 4));
       sextet (N.lor (N.shiftl y 2) (N.shiftr z 6));
       sextet z] ++ b64encode rest
  end.

End Base64.

(** ** [json.dumps] with its default arguments

    The values [json.dumps] accepts, floats left out: [None], [bool],
    [int], [str], [list], and [dict] with [str] keys, a [dict] being the
    list of its items in insertion order. *)

Module json.

#[warnings="-register-all"]
Inductive value : Type :=
  | Null
  | Bool (b : bool)
  | Int (n : Z)
  | Str (s : pystr)
  | List (items : list value)
  | Dict (items : list (pystr * value)).

Definition hex_char (d : N) : N :=
  if (d <? 10)%N then (0x30 + d)%N else (0x57 + d)%N.

(** ['{0:04x}'.format(n)] *)
Definition hex4 (n : N) : pystr :=
  map (fun i => hex_char (N.land (N.shiftr n (4 * i)) 0xF)) [3; 2; 1; 0]%N.

Definition backslash : N := 0x5C%N.
Definition quote : N := 0x22%N.

(** The replacement of one code point in [py_encode_basestring_ascii]:
    everything outside space .. tilde, the quote and the backslash are
    escaped, code points above U+FFFF as a surrogate pair. *)
Definition escape_cp (c : N) : pystr :=
  if (c =? quote)%N then [backslash; quote]
  else if (c =? backslash)%N then [backslash; backslash]
  else if (0x20 <=? c)%N && (c <=? 0x7E)%N then [c]
  else if (c =? 0x0A)%N then backslash :: lit "n"
  else if (c =? 0x0D)%N then backslash :: lit "r"
  else if (c =? 0x09)%N then backslash :: lit "t"
  else if (c =? 0x08)%N then backslash :: lit "b"
  else if (c =? 0x0C)%N then backslash :: lit "f"
  else if (c <? 0x10000)%N then backslash :: lit "u" ++ hex4 c
  else
    let n := (c - 0x10000)%N in
    backslash :: lit "u"
      ++ hex4 (N.lor 0xD800 (N.land (N.shiftr n 10) 0x3FF))
      ++ backslash :: lit "u" ++ hex4 (N.lor 0xDC00 (N.land n 0x3FF)).

Definition encode_basestring_ascii (s : pystr) : pystr :=
  quote :: flat_map escape_cp s ++ [quote].

(** [json.dumps(v)]: items separated by a comma and a space, keys from
    values by a colon and a space. *)
Fixpoint dumps (v : value) : pystr :=
  match v with
  | Null => lit "null"
  | Bool true => lit "true"
  | Bool false => lit "false"
  | Int n => Py.str n
  | Str s => encode_basestring_ascii s
  | List items => lit "[" ++ Py.join (lit ", ") (map dumps items) ++ lit "]"
  | Dict items =>
      lit "{"
        ++ Py.join (lit ", ")
             (map (fun kv : pystr * value =>
                     let '(k, x) := kv in
                     encode_basestring_ascii k ++ lit ": " ++ dumps x)
                  items)
        ++ lit "}"
  end.

End json.

(** ** [class HmacClient] *)

Module HmacClient.

(** The instance attributes.  Of [self.session] only the [verify] flag
    is set by this class. *)
Record t : Type := {
  client : pystr;
  secret : bytes;
  base_url : pystr;
  session_verify : bool
}.

Definition DEFAULT_SCHEME_NAME : pystr := lit "HMAC".
Definition TIME_STAMP_HEADER_NAME : pystr := lit "x-timestamp".
Definition CONTENT_HASH_HEADER_NAME : pystr := lit "x-content-sha256".
Definition EMPTY_CONTENT_HASH : pystr :=
  lit "47DEQpj8HBSa+/TImW+5JCeuQeRkm5NMpJWZG3hSuFU=".
Definition DEFAULT_SIGNED_HEADERS : list pystr :=
  [lit "host"; TIME_STAMP_HEADER_NAME; CONTENT_HASH_HEADER_NAME].

Definition __init__ (client secret base_url : pystr) : result t :=
  secret_bytes ← Py.utf8_encode secret;
  Ok {| client := client;
        secret := secret_bytes;
        base_url := Py.rstrip 0x2F base_url;
        session_verify :=
          negb (Py.contains (lit "localhost") base_url
                || Py.contains (lit "127.0.0.1") base_url) |}.

Definition create_string_to_sign {rt : Runtime} (self : t)
    (method path_and_query : pystr) (header_values : list pystr) : pystr :=
  let upper_method := Py.upper method in
  let header_string := Py.join (lit ";") header_values in
  upper_method ++ [0x0A%N] ++ path_and_query ++ [0x0A%N] ++ header_string.

Definition generate_signature (self : t) (string_to_sign : pystr)
    : result pystr :=
  message ← Py.utf8_encode string_to_sign;
  let signature := HMAC.digest (secret self) message in
  Py.utf8_decode (Base64.b64encode signature).

Definition generate_authorization_header (self : t)
    (signed_headers : list pystr) (signature : pystr) : pystr :=
  let signed_headers_string := Py.join (lit ";") signed_headers in
  DEFAULT_SCHEME_NAME ++ lit " Client=" ++ client self
    ++ lit "&SignedHeaders=" ++ signed_headers_string
    ++ lit "&Signature=" ++ signature.

Definition calculate_content_hash (self : t) (content : option pystr)
    : result pystr :=
  if negb (Py.truthy_opt content) then Ok EMPTY_CONTENT_HASH
  else
    content_bytes ← Py.utf8_encode (default [] content);
    let hash_digest := SHA256.digest content_bytes in
    Py.utf8_decode (Base64.b64encode hash_digest).

(** [url.path + ("?" + url.query if url.query else "")] *)
Definition path_and_query (url : ParseResult) : pystr :=
  path url ++ (if Py.truthy (query url) then lit "?" ++ query url else []).

(** [now] is what [time.time()] returns during the call. *)
Definition create_authenticated_headers {rt : Runtime} (self : t) (now : Q)
    (method path : pystr) (content : option pystr)
    : result (gmap pystr pystr) :=
  url ← urlparse (base_url self ++ path);
  let host := netloc url in
  let path_and_query := path_and_query url in
  let timestamp := Py.str (Py.int now) in
  content_hash ← calculate_content_hash self content;
  let header_values := [host; timestamp; content_hash] in
  let string_to_sign :=
    create_string_to_sign self method path_and_query header_values in
  signature ← generate_signature self string_to_sign;
  let authorization_header :=
    generate_authorization_header self DEFAULT_SIGNED_HEADERS signature in
  let headers : gmap pystr pystr :=
    <[lit "Authorization" := authorization_header]>
      (<[CONTENT_HASH_HEADER_NAME := content_hash]>
         (<[TIME_STAMP_HEADER_NAME := timestamp]>
            (<[lit "Host" := host]> ∅))) in
  Ok (if Py.truthy_opt content
      then <[lit "Content-Type" := lit "application/json"]> headers
      else headers).

(** The keyword arguments of a call [self.session.request(...)].  The
    model of [request] ends with this call: what the transport answers
    lies outside. *)
Record SessionCall : Type := {
  call_method : pystr;
  call_url : pystr;
  call_headers : gmap pystr pystr;
  call_data : option pystr
}.

(** [bool(d)] for an [Optional[Dict]]: [None] and the empty dictionary
    are falsy. *)
Definition truthy_dict (d : option (list (pystr * json.value))) : bool :=
  match d with
  | Some (_ :: _) => true
  | _ => false
  end.

Definition request {rt : Runtime} (self : t) (now : Q)
    (method path : pystr) (json_data : option (list (pystr * json.value)))
    : result SessionCall :=
  let content :=
    if truthy_dict json_data
    then Some (json.dumps (json.Dict (default [] json_data)))
    else None in
  headers ← create_authenticated_headers self now method path content;
  let url := base_url self ++ path in
  Ok {| call_method := Py.upper method;
        call_url := url;
        call_headers := headers;
        call_data := content |}.


Definition post {rt : Runtime} (self : t) (now : Q) (path : pystr)
    (json_data : list (pystr * json.value)) : result SessionCall :=
  request self now (lit "POST") path (Some json_data).



End HmacClient.

(** ** A reference runtime

    [urlparse] for URLs of the plain shape
    [scheme://netloc/path;params?query#fragment], following
    [urllib.parse.urlsplit] and [urlparse]; the stripping of control
    characters and the validation of bracketed hosts that recent versions
    add are left out.  The case table maps every code point outside ASCII
    to itself.  The runtime serves to run the client on concrete requests;
    the properties below hold for every runtime. *)

Module urllib.

(** [s] up to the first code point satisfying [stop], and the rest from
    that code point on. *)
Fixpoint break (stop : N -> bool) (s : pystr) : pystr * pystr :=
  match s with
  | [] => ([], [])
  | x :: s' =>
      if stop x then ([], s)
      else let '(pre, rest) := break stop s' in (x :: pre, rest)
  end.

Definition is_char (c : string) (x : N) : bool :=
  existsb (N.eqb x) (lit c).

Definition ascii_alpha (x : N) : bool :=
  ((0x41 <=? x) && (x <=? 0x5A) || (0x61 <=? x) && (x <=? 0x7A))%N.

Definition scheme_char (x : N) : bool :=
  ascii_alpha x || ((0x30 <=? x) && (x <=? 0x39))%N || is_char "+-." x.

Definition lower_ascii (x : N) : N :=
  if ((0x41 <=? x) && (x <=? 0x5A))%N then (x + 0x20)%N else x.

Definition uses_params : list pystr :=
  map lit [""; "ftp"; "hdl"; "prospero"; "http"; "imap"; "https"; "shttp";
           "rtsp"; "rtspu"; "sip"; "sips"; "mms"; "sftp"; "tel"]%string.

Definition split_scheme (url : pystr) : pystr * pystr :=
  let '(pre, rest) := break (is_char ":") url in
  match pre, rest with
  | x :: _, _ :: after =>
      if ascii_alpha x && forallb scheme_char pre
      then (map lower_ascii pre, after)
      else ([], url)
  | _, _ => ([], url)
  end.

Definition split_netloc (url : pystr) : result (pystr * pystr) :=
  if Py.startswith url (lit "//") then
    let '(loc, rest) := break (is_char "/?#") (skipn 2 url) in
    if xorb (existsb (is_char "[") loc) (existsb (is_char "]") loc)
    then Raise ValueError
    else Ok (loc, rest)
  else Ok ([], url).

(** [s.split(c, 1)] when [c] occurs in [s], else [s] and the empty
    string. *)
Definition split_once (c : string) (s : pystr) : pystr * pystr :=
  let '(pre, rest) := break (is_char c) s in (pre, tl rest).

Definition split_params (url : pystr) : pystr * pystr :=
  let '(rev_segment, rev_dir) := break (is_char "/") (rev url) in
  let '(name, rest) := break (is_char ";") (rev rev_segment) in
  match rest with
  | [] => (url, [])
  | _ :: after => (rev rev_dir ++ name, after)
  end.

Definition urlparse (url : pystr) : result ParseResult :=
  let '(scheme, url) := split_scheme url in
  '(netloc, url) ← split_netloc url;
  let '(url, fragment) := split_once "#" url in
  let '(url, query) := split_once "?" url in
  let '(url, params) :=
    if bool_decide (scheme ∈ uses_params) then split_params url
    else (url, []) in
  Ok {| scheme := scheme; netloc := netloc; path := url;
        params := params; query := query; fragment := fragment |}.

End urllib.

Definition reference_runtime : Runtime :=
  {| urlparse := urllib.urlparse; toupper_full := fun c => [c] |}.

(** ** Inputs on which signing returns

    The calls made by [create_authenticated_headers] that can raise are
    [urlparse] and the two [encode('utf-8')]: one on a non-empty body, one
    on the string to sign, which carries the upper-cased method, the path
    and query and the host. *)
Definition signable {rt : Runtime} (self : HmacClient.t)
    (method path : pystr) (content : option pystr) : bool :=
  match urlparse (HmacClient.base_url self ++ path) with
  | Ok url =>
      Py.encodable (default [] content)
      && Py.encodable (Py.upper method)
      && Py.encodable (HmacClient.path_and_query url)
      && Py.encodable (netloc url)
  | Raise _ => false
  end.

(** The client of the unit tests:
    [HmacClient("TestClient", "test-secret", "https://api.example.com")]. *)
Definition test_client : HmacClient.t :=
  {| HmacClient.client := lit "TestClient";
     HmacClient.secret := bytes_lit "test-secret";
     HmacClient.base_url := lit "https://api.example.com";
     HmacClient.session_verify := true |}.

Definition no_verify_client : HmacClient.t :=
  {| HmacClient.client := lit "TestClient";
     HmacClient.secret := bytes_lit "test-secret";
     HmacClient.base_url := lit "https://api.example.com";
     HmacClient.session_verify := false |}.

(** A client with an empty identifier and an empty secret. *)
Definition anonymous_client : HmacClient.t :=
  {| HmacClient.client := [];
     HmacClient.secret := [];
     HmacClient.base_url := lit "https://api.example.com";
     HmacClient.session_verify := true |}.

(** [urlparse("https://api.example.com/api/test?page=2")] *)
Definition test_url : ParseResult :=
  {| scheme := lit "https"; netloc := lit "api.example.com";
     path := lit "/api/test"; params := []; query := lit "page=2";
     fragment := [] |}.

(** Octets written as pairs of lower-case hexadecimal digits, for digests. *)
Definition hex_digit (a : ascii) : N :=
  let n := N_of_ascii a in
  if (n <? 0x3A)%N then (n - 0x30)%N else (n - 0x57)%N.

Fixpoint unhex (s : string) : bytes :=
  match s with
  | String hi (String lo rest) =>
      byte_of_N (16 * hex_digit hi + hex_digit lo) :: unhex rest
  | _ => []
  end.

(** ** Notions the further properties are stated with *)

(** The 64 characters base64 writes sextets with. *)
Definition base64_alphabet : pystr :=
  lit "ABCDEFGHIJKLMNOPQRSTUVWXYZabcdefghijklmnopqrstuvwxyz0123456789+/".


Definition is_digit (c : N) : bool := ((0x30 <=? c) && (c <=? 0x39))%N.

(** The number a string of decimal digits denotes. *)
Definition decimal_value (s : pystr) : Z :=
  fold_left (fun acc c => 10 * acc + (Z.of_N c - 0x30)) s 0.

(** The local [content] of [request]:
    [json.dumps(json_data) if json_data else None]. *)
Definition request_content (json_data : option (list (pystr * json.value)))
    : option pystr :=
  if HmacClient.truthy_dict json_data
  then Some (json.dumps (json.Dict (default [] json_data)))
  else None.


(** [{"key": "value"}], the payload of the unit test of [post]. *)
Definition test_payload : list (pystr * json.value) :=
  [(lit "key", json.Str (lit "value"))].

(** A literal in which the apostrophe stands for the double quote. *)
Definition qlit (s : string) : pystr :=
  map (fun c => if (c =? 0x27)%N then 0x22%N else c) (lit s).

(** A client whose identifier continues like an [Authorization] value. *)
Definition forged_client : HmacClient.t :=
  {| HmacClient.client := lit "TestClient&SignedHeaders=host";
     HmacClient.secret := bytes_lit "test-secret";
     HmacClient.base_url := lit "https://api.example.com";
     HmacClient.session_verify := true |}.

(** [urlparse("https://api.example.com/api/test;v=1?page=2#top")] *)
Definition test_url_params : ParseResult :=
  {| scheme := lit "https"; netloc := lit "api.example.com";
     path := lit "/api/test"; params := lit "v=1"; query := lit "page=2";
     fragment := lit "top" |}.

(** * Properties *)

Import HmacClient.

Ltac distinct_keys :=
  let E := fresh "E" in intros E; vm_compute in E; discriminate E.

Ltac lookup_header :=
  unfold TIME_STAMP_HEADER_NAME, CONTENT_HASH_HEADER_NAME;
  repeat first
    [ rewrite lookup_insert_eq
    | rewrite lookup_insert_ne by distinct_keys
    | rewrite lookup_empty ].

Ltac by_cases_on_comparisons :=
  repeat match goal with
  | |- context [(?x <? ?y)%N] => destruct (N.ltb_spec x y)
  | |- context [(?x <=? ?y)%N] => destruct (N.leb_spec x y)
  end.

(** ** The library models against published test vectors *)

Example sha256_constants :
  nth 0 SHA256.K 0 = 0x428a2f98 /\ nth 63 SHA256.K 0 = 0xc67178f2
  /\ nth 0 SHA256.H0 0 = 0x6a09e667 /\ nth 7 SHA256.H0 0 = 0x5be0cd19
  /\ length SHA256.K = 64%nat /\ length SHA256.H0 = 8%nat.
Proof. repeat split; reflexivity. Qed.

Example sha256_abc :
  SHA256.digest (bytes_lit "abc")
  = unhex "ba7816bf8f01cfea414140de5dae2223b00361a396177a9cb410ff61f20015ad".
Proof. vm_compute. reflexivity. Qed.

Example sha256_two_blocks :
  SHA256.digest
    (bytes_lit "abcdbcdecdefdefgefghfghighijhijkijkljklmklmnlmnomnopnopq")
  = unhex "248d6a61d20638b8e5c026930c3e6039a33ce45964ff2167f6ecedd419db06c1".
Proof. vm_compute. reflexivity. Qed.

Example hmac_sha256_rfc4231_case2 :
  HMAC.digest (bytes_lit "Jefe") (bytes_lit "what do ya want for nothing?")
  = unhex "5bdcc146bf60754e6a042426089575c75a003f089d2739839dec58b964ec3843".
Proof. vm_compute. reflexivity. Qed.

Example base64_rfc4648 :
  Base64.b64encode (bytes_lit "") = bytes_lit ""
  /\ Base64.b64encode (bytes_lit "f") = bytes_lit "Zg=="
  /\ Base64.b64encode (bytes_lit "fo") = bytes_lit "Zm8="
  /\ Base64.b64encode (bytes_lit "foo") = bytes_lit "Zm9v"
  /\ Base64.b64encode (bytes_lit "foob") = bytes_lit "Zm9vYg=="
  /\ Base64.b64encode (bytes_lit "fooba") = bytes_lit "Zm9vYmE="
  /\ Base64.b64encode (bytes_lit "foobar") = bytes_lit "Zm9vYmFy".
Proof. repeat split; reflexivity. Qed.

Example utf8_samples :
  Py.utf8_encode [0x41; 0xE9; 0x20AC; 0x1F600]%N
  = Ok (unhex "41c3a9e282acf09f9880")
  /\ Py.utf8_decode (unhex "41c3a9e282acf09f9880")
     = Ok [0x41; 0xE9; 0x20AC; 0x1F600]%N
  /\ Py.utf8_encode [0xD800%N] = Raise UnicodeEncodeError
  /\ Py.utf8_decode (unhex "eda080") = Raise UnicodeDecodeError
  /\ Py.utf8_decode (unhex "c080") = Raise UnicodeDecodeError.
Proof. repeat split; reflexivity. Qed.

Example str_int_samples :
  Py.str (Py.int (1234567890 # 1)) = lit "1234567890"
  /\ Py.str (Py.int (12345678909 # 10)) = lit "1234567890"
  /\ Py.str 0 = lit "0" /\ Py.str (-42) = lit "-42".
Proof. repeat split; reflexivity. Qed.

Example urlparse_samples :
  urllib.urlparse (lit "https://api.example.com/api/test?page=2") = Ok test_url
  /\ urllib.urlparse (lit "http://[/x") = Raise ValueError.
Proof. split; reflexivity. Qed.

(** The constructor as the unit tests exercise it: the secret is stored
    encoded, a trailing slash of the base URL is removed. *)
Example init_samples :
  __init__ (lit "TestClient") (lit "test-secret") (lit "https://api.example.com")
  = Ok test_client
  /\ (base_url <$> __init__ (lit "test") (lit "secret") (lit "https://api.example.com/"))
     = Ok (lit "https://api.example.com")
  /\ (session_verify <$> __init__ (lit "c") (lit "s") (lit "https://localhost:7134"))
     = Ok false.
Proof. repeat split; reflexivity. Qed.

(** ** Encoding and decoding *)

Lemma returns_ok {A} (m : result A) : returns m = true -> exists a, m = Ok a.
Proof. destruct m; [eauto | discriminate]. Qed.

Lemma N_of_ascii_lt (a : ascii) : (N_of_ascii a < 256)%N.
Proof. destruct a as [[] [] [] [] [] [] [] []]; vm_compute; reflexivity. Qed.

Lemma scalar_small c : (c < 0xD800)%N -> Py.scalar c = true.
Proof.
  intros Hc. unfold Py.scalar. apply orb_true_iff. left. now apply N.ltb_lt.
Qed.

(** Source literals never hold a surrogate. *)
Lemma encodable_lit s : Py.encodable (lit s) = true.
Proof.
  unfold Py.encodable, lit. apply forallb_forall. intros c Hc.
  apply in_map_iff in Hc as (a & <- & _). apply scalar_small.
  pose proof (N_of_ascii_lt a). lia.
Qed.

Lemma encodable_str n : Py.encodable (Py.str n) = true.
Proof. apply encodable_lit. Qed.

Lemma encodable_app s1 s2 :
  Py.encodable (s1 ++ s2) = Py.encodable s1 && Py.encodable s2.
Proof. apply forallb_app. Qed.

(** Encoding one code point raises exactly on what is not a scalar value. *)
Lemma utf8_encode_cp_returns c : returns (Py.utf8_encode_cp c) = Py.scalar c.
Proof.
  unfold Py.scalar, Py.utf8_encode_cp.
  by_cases_on_comparisons; simpl; try reflexivity; lia.
Qed.

Lemma utf8_encode_returns s : returns (Py.utf8_encode s) = Py.encodable s.
Proof.
  induction s as [|c s IH]; simpl; [reflexivity|].
  rewrite <- IH, <- utf8_encode_cp_returns.
  destruct (Py.utf8_encode_cp c); simpl; [|reflexivity].
  destruct (Py.utf8_encode s); reflexivity.
Qed.

Lemma utf8_decode_ascii bs :
  forallb Py.is_ascii bs = true -> Py.utf8_decode bs = Ok (Py.ascii_str bs).
Proof.
  induction bs as [|b bs IH]; simpl; [reflexivity|].
  intros [Hb Hbs]%andb_true_iff. unfold Py.is_ascii in Hb.
  rewrite Hb, (IH Hbs). reflexivity.
Qed.

Lemma encodable_ascii_str bs :
  forallb Py.is_ascii bs = true -> Py.encodable (Py.ascii_str bs) = true.
Proof.
  induction bs as [|b bs IH]; simpl; [reflexivity|].
  intros [Hb Hbs]%andb_true_iff. rewrite (IH Hbs), andb_true_r.
  apply scalar_small. apply N.ltb_lt in Hb. lia.
Qed.

(** ** Base64 output *)

Lemma sextet_ascii n : Py.is_ascii (Base64.sextet n) = true.
Proof.
  unfold Base64.sextet.
  assert (Hall : forallb Py.is_ascii (Base64.pad_char :: Base64.alphabet) = true)
    by (vm_compute; reflexivity).
  rewrite forallb_forall in Hall. apply Hall.
  destruct (nth_in_or_default (N.to_nat (N.land n 63)) Base64.alphabet
              Base64.pad_char) as [Hin | ->]; [right; exact Hin | left; reflexivity].
Qed.

(** [b64encode] consumes three octets per step; facts about it go by
    induction on a bound of the input length. *)
Lemma b64encode_ascii bs : forallb Py.is_ascii (Base64.b64encode bs) = true.
Proof.
  cut (forall n bs, (length bs <= n)%nat ->
         forallb Py.is_ascii (Base64.b64encode bs) = true).
  { intros Hn. apply (Hn (length bs)). lia. }
  clear bs. intros n. induction n as [n IH] using lt_wf_ind. intros bs Hlen.
  destruct bs as [|x [|y [|z rest]]]; cbn [Base64.b64encode forallb app];
    rewrite ?sextet_ascii; try reflexivity.
  cbn. apply (IH (length rest)); simpl in Hlen; lia.
Qed.

Lemma b64encode_length bs :
  length (Base64.b64encode bs) = (4 * ((length bs + 2) / 3))%nat.
Proof.
  cut (forall n bs, (length bs <= n)%nat ->
         length (Base64.b64encode bs) = (4 * ((length bs + 2) / 3))%nat).
  { intros Hn. apply (Hn (length bs)). lia. }
  clear bs. intros n. induction n as [n IH] using lt_wf_ind. intros bs Hlen.
  destruct bs as [|x [|y [|z rest]]]; try reflexivity.
  cbn [Base64.b64encode length app].
  rewrite (IH (length rest)) by (simpl in Hlen; lia).
  replace (S (S (S (length rest))) + 2)%nat
    with (length rest + 2 + 1 * 3)%nat by lia.
  rewrite Nat.div_add by lia. lia.
Qed.

(** The [decode('utf-8')] that follows [b64encode] never raises. *)
Lemma b64_text bs :
  Py.utf8_decode (Base64.b64encode bs) = Ok (Py.ascii_str (Base64.b64encode bs)).
Proof. apply utf8_decode_ascii, b64encode_ascii. Qed.

(** ** Digest sizes *)

Lemma be_bytes_length n v : length (SHA256.be_bytes n v) = n.
Proof. induction n; simpl; congruence. Qed.

Lemma compress_length hash block :
  length hash = 8%nat -> length (SHA256.compress hash block) = 8%nat.
Proof.
  intros Hl. unfold SHA256.compress. rewrite length_zip_with, Hl. reflexivity.
Qed.

Lemma sha256_digest_length msg : length (SHA256.digest msg) = 32%nat.
Proof.
  unfold SHA256.digest.
  assert (Hl : length (fold_left SHA256.compress (SHA256.blocks (SHA256.pad msg))
                         SHA256.H0) = 8%nat).
  { generalize (SHA256.blocks (SHA256.pad msg)).
    assert (H0 : length SHA256.H0 = 8%nat) by reflexivity.
    revert H0. generalize SHA256.H0. intros hash Hh bl. revert hash Hh.
    induction bl as [|blk bl IH]; intros hash Hh; simpl; [exact Hh|].
    apply IH, compress_length, Hh. }
  rewrite (flat_map_constant_length (c := 4%nat)), Hl; [reflexivity|].
  intros v _. apply be_bytes_length.
Qed.

(** ** The methods of [HmacClient] *)

Section Methods.

Context {rt : Runtime}.

Lemma create_string_to_sign_eq self (m p a b c : pystr) :
  create_string_to_sign self m p [a; b; c]
  = Py.upper m ++ [10%N] ++ p ++ [10%N] ++ a ++ lit ";" ++ b ++ lit ";" ++ c.
Proof. reflexivity. Qed.

(** C1. For a method [m], a path and query [p] and header values
    [[a; b; c]], [create_string_to_sign] returns the upper-cased method, a
    line feed, [p] as it is, a line feed, and the header values joined by
    semicolons in the order given; nothing is escaped.  On ["get"],
    ["/api/test"], [["example.com"; "1234567890"; "abc123"]] this is
    [GET], [/api/test] and [example.com;1234567890;abc123] on three
    lines. *)
Theorem create_string_to_sign_format (self : t) (m p a b c : pystr) :
  create_string_to_sign self m p [a; b; c]
    = Py.upper m ++ [10%N] ++ p ++ [10%N] ++ a ++ lit ";" ++ b ++ lit ";" ++ c
  /\ create_string_to_sign self (lit "get") (lit "/api/test")
       [lit "example.com"; lit "1234567890"; lit "abc123"]
     = lit "GET" ++ [10%N] ++ lit "/api/test" ++ [10%N]
         ++ lit "example.com;1234567890;abc123".
Proof. split; [apply create_string_to_sign_eq | vm_compute; reflexivity]. Qed.

Lemma string_to_sign_encodable self (m p a b c : pystr) :
  Py.encodable (create_string_to_sign self m p [a; b; c])
  = Py.encodable (Py.upper m) && Py.encodable p && Py.encodable a
    && Py.encodable b && Py.encodable c.
Proof.
  rewrite create_string_to_sign_eq, !encodable_app, (encodable_lit ";").
  change (Py.encodable [10%N]) with true. simpl.
  rewrite !andb_assoc. reflexivity.
Qed.

Lemma generate_signature_eq self s :
  generate_signature self s
  = (fun msg => Py.ascii_str (Base64.b64encode (HMAC.digest (secret self) msg)))
      <$> Py.utf8_encode s.
Proof.
  unfold generate_signature. destruct (Py.utf8_encode s); simpl; [|reflexivity].
  apply b64_text.
Qed.

Lemma generate_signature_returns self s :
  returns (generate_signature self s) = Py.encodable s.
Proof.
  rewrite generate_signature_eq, <- utf8_encode_returns.
  destruct (Py.utf8_encode s); reflexivity.
Qed.

(** A signature is 44 characters of base64: 32 octets, padded. *)
Lemma generate_signature_length self s sig :
  generate_signature self s = Ok sig -> length sig = 44%nat.
Proof.
  rewrite generate_signature_eq.
  destruct (Py.utf8_encode s); simpl; [|discriminate].
  intros [= <-]. unfold Py.ascii_str, HMAC.digest.
  rewrite length_map, b64encode_length, sha256_digest_length. reflexivity.
Qed.

(** C2. On a client constructed with the secret string [k], which the
    constructor stores as its UTF-8 encoding [key], [generate_signature]
    applied to any string [s] returns the text of the standard padded
    base64 encoding of the HMAC-SHA256 digest with key [key] of the UTF-8
    encoding of [s] (and raises where [s] has no UTF-8 encoding). *)
Theorem generate_signature_hmac_sha256 (cid k url : pystr) (self : t) :
  __init__ cid k url = Ok self ->
  exists key,
    Py.utf8_encode k = Ok key /\
    forall s,
      generate_signature self s
      = (fun msg => Py.ascii_str (Base64.b64encode (HMAC.digest key msg)))
          <$> Py.utf8_encode s.
Proof.
  unfold __init__. destruct (Py.utf8_encode k) as [key|]; simpl; [|discriminate].
  intros [= <-]. exists key. split; [reflexivity|].
  intros s. apply generate_signature_eq.
Qed.

(** C3. [calculate_content_hash] returns the constant [EMPTY_CONTENT_HASH]
    both for [None] and for the empty string, and that constant is the
    standard base64 text of the SHA-256 digest of the empty octet
    sequence, [47DEQpj8HBSa+/TImW+5JCeuQeRkm5NMpJWZG3hSuFU=]. *)
Theorem empty_content_hash (self : t) :
  calculate_content_hash self None = Ok EMPTY_CONTENT_HASH
  /\ calculate_content_hash self (Some []) = Ok EMPTY_CONTENT_HASH
  /\ EMPTY_CONTENT_HASH = Py.ascii_str (Base64.b64encode (SHA256.digest []))
  /\ EMPTY_CONTENT_HASH = lit "47DEQpj8HBSa+/TImW+5JCeuQeRkm5NMpJWZG3hSuFU=".
Proof. repeat split; vm_compute; reflexivity. Qed.

(** C4. For a non-empty content string [c], [calculate_content_hash]
    returns the text of the standard padded base64 encoding of the
    SHA-256 digest of exactly the UTF-8 encoding of [c] (and raises where
    [c] has no UTF-8 encoding). *)
Theorem calculate_content_hash_sha256 (self : t) (c : pystr) :
  Py.truthy c = true ->
  calculate_content_hash self (Some c)
  = (fun body => Py.ascii_str (Base64.b64encode (SHA256.digest body)))
      <$> Py.utf8_encode c.
Proof.
  intros Hc. unfold calculate_content_hash.
  change (Py.truthy_opt (Some c)) with (Py.truthy c). rewrite Hc.
  simpl. destruct (Py.utf8_encode c); simpl; [apply b64_text | reflexivity].
Qed.

Lemma calculate_content_hash_returns self content :
  returns (calculate_content_hash self content)
  = Py.encodable (default [] content).
Proof.
  unfold calculate_content_hash.
  destruct (Py.truthy_opt content) eqn:Ht; simpl.
  - rewrite <- utf8_encode_returns.
    destruct (Py.utf8_encode (default [] content)); simpl; [|reflexivity].
    rewrite b64_text. reflexivity.
  - destruct content as [[|]|]; try discriminate; reflexivity.
Qed.

Lemma calculate_content_hash_text self content h :
  calculate_content_hash self content = Ok h -> Py.encodable h = true.
Proof.
  unfold calculate_content_hash.
  destruct (Py.truthy_opt content); simpl.
  - destruct (Py.utf8_encode (default [] content)); simpl; [|discriminate].
    rewrite b64_text. intros [= <-]. apply encodable_ascii_str, b64encode_ascii.
  - intros [= <-]. apply encodable_lit.
Qed.

Lemma calculate_content_hash_self self1 self2 content :
  calculate_content_hash self1 content = calculate_content_hash self2 content.
Proof. reflexivity. Qed.

(** C5. [generate_authorization_header] returns [HMAC Client=], the client
    identifier, [&SignedHeaders=], the header names joined by semicolons,
    [&Signature=] and the signature, none of them URL-encoded.  For the
    client [TestClient], the names [host], [x-timestamp],
    [x-content-sha256] and the signature [test-signature] this is
    [HMAC Client=TestClient&SignedHeaders=host;x-timestamp;x-content-sha256&Signature=test-signature]. *)
Theorem generate_authorization_header_format
    (self : t) (hs : list pystr) (sig : pystr) :
  generate_authorization_header self hs sig
    = lit "HMAC Client=" ++ client self ++ lit "&SignedHeaders="
        ++ Py.join (lit ";") hs ++ lit "&Signature=" ++ sig
  /\ generate_authorization_header test_client
       [lit "host"; lit "x-timestamp"; lit "x-content-sha256"]
       (lit "test-signature")
     = lit "HMAC Client=TestClient&SignedHeaders=host;x-timestamp;x-content-sha256&Signature=test-signature".
Proof. split; [reflexivity | vm_compute; reflexivity]. Qed.

Lemma generate_authorization_header_default self sig :
  generate_authorization_header self DEFAULT_SIGNED_HEADERS sig
  = lit "HMAC Client=" ++ client self
      ++ lit "&SignedHeaders=host;x-timestamp;x-content-sha256&Signature=" ++ sig.
Proof.
  unfold generate_authorization_header.
  change (DEFAULT_SCHEME_NAME ++ lit " Client=" ++ client self
            ++ lit "&SignedHeaders="
            ++ Py.join (lit ";") DEFAULT_SIGNED_HEADERS ++ lit "&Signature=" ++ sig)
    with (lit "HMAC Client=" ++ client self
            ++ lit "&SignedHeaders=host;x-timestamp;x-content-sha256&Signature=" ++ sig).
  reflexivity.
Qed.

(** ** [create_authenticated_headers] *)

(** What a call that returns has computed on the way. *)
Lemma create_authenticated_headers_inv self now m p content hs :
  create_authenticated_headers self now m p content = Ok hs ->
  exists url content_hash signature,
    urlparse (base_url self ++ p) = Ok url /\
    calculate_content_hash self content = Ok content_hash /\
    generate_signature self
      (create_string_to_sign self m (path_and_query url)
         [netloc url; Py.str (Py.int now); content_hash]) = Ok signature /\
    let base :=
      <[lit "Authorization" :=
          generate_authorization_header self DEFAULT_SIGNED_HEADERS signature]>
        (<[CONTENT_HASH_HEADER_NAME := content_hash]>
           (<[TIME_STAMP_HEADER_NAME := Py.str (Py.int now)]>
              (<[lit "Host" := netloc url]> (∅ : gmap pystr pystr)))) in
    hs = if Py.truthy_opt content
         then <[lit "Content-Type" := lit "application/json"]> base
         else base.
Proof.
  unfold create_authenticated_headers.
  destruct (urlparse (base_url self ++ p)) as [url|]; simpl; [|discriminate].
  destruct (calculate_content_hash self content) as [ch|]; simpl; [|discriminate].
  destruct (generate_signature self _) as [sig|] eqn:Hsig; simpl; [|discriminate].
  intros [= <-]. exists url, ch, sig. repeat split; assumption.
Qed.

(** The call returns exactly on the signable inputs. *)
Lemma create_authenticated_headers_returns_iff self now m p content :
  returns (create_authenticated_headers self now m p content)
  = signable self m p content.
Proof.
  unfold create_authenticated_headers, signable.
  destruct (urlparse (base_url self ++ p)) as [url|]; simpl; [|reflexivity].
  rewrite <- (calculate_content_hash_returns self content).
  destruct (calculate_content_hash self content) as [ch|] eqn:Hch; simpl;
    [|reflexivity].
  match goal with
  | |- context [generate_signature self ?s] =>
      pose proof (generate_signature_returns self s) as Hret;
      destruct (generate_signature self s)
  end; simpl in *;
    rewrite string_to_sign_encodable, encodable_str,
      (calculate_content_hash_text _ _ _ Hch), !andb_true_r in Hret;
    rewrite <- Hret; reflexivity.
Qed.

Lemma create_authenticated_headers_shape self now m p content :
  signable self m p content = true ->
  exists url content_hash signature,
    urlparse (base_url self ++ p) = Ok url /\
    calculate_content_hash self content = Ok content_hash /\
    generate_signature self
      (create_string_to_sign self m (path_and_query url)
         [netloc url; Py.str (Py.int now); content_hash]) = Ok signature /\
    create_authenticated_headers self now m p content
    = Ok (let base :=
            <[lit "Authorization" :=
                generate_authorization_header self DEFAULT_SIGNED_HEADERS signature]>
              (<[CONTENT_HASH_HEADER_NAME := content_hash]>
                 (<[TIME_STAMP_HEADER_NAME := Py.str (Py.int now)]>
                    (<[lit "Host" := netloc url]> (∅ : gmap pystr pystr)))) in
          if Py.truthy_opt content
          then <[lit "Content-Type" := lit "application/json"]> base
          else base).
Proof.
  intros Hs. rewrite <- (create_authenticated_headers_returns_iff self now) in Hs.
  destruct (returns_ok _ Hs) as [hs Hhs].
  destruct (create_authenticated_headers_inv _ _ _ _ _ _ Hhs)
    as (url & ch & sig & Hurl & Hch & Hsig & ->).
  exists url, ch, sig. repeat split; assumption.
Qed.

(** C6. On every input on which it returns, [create_authenticated_headers]
    returns a mapping whose keys are exactly [Host], [x-timestamp],
    [x-content-sha256] and [Authorization] when the body is absent or
    empty, and these and [Content-Type] when it is not; [Content-Type] is
    present, with value [application/json], if and only if the body is
    non-empty.  [x-timestamp] holds the clock reading truncated to whole
    seconds in decimal, [x-content-sha256] holds [EMPTY_CONTENT_HASH] for
    an absent or empty body, and the [Authorization] value starts with
    [HMAC Client=] and the client identifier. *)
Theorem create_authenticated_headers_keys
    (self : t) (now : Q) (m p : pystr) (content : option pystr) :
  signable self m p content = true ->
  exists headers : gmap pystr pystr,
    create_authenticated_headers self now m p content = Ok headers
    /\ dom headers
       = {[lit "Host"; lit "x-timestamp"; lit "x-content-sha256";
           lit "Authorization"]}
         ∪ (if Py.truthy_opt content then {[lit "Content-Type"]} else ∅)
    /\ headers !! lit "Content-Type"
       = (if Py.truthy_opt content then Some (lit "application/json") else None)
    /\ headers !! lit "x-timestamp" = Some (Py.str (Py.int now))
    /\ (Py.truthy_opt content = false ->
        headers !! lit "x-content-sha256" = Some EMPTY_CONTENT_HASH)
    /\ exists rest,
         headers !! lit "Authorization"
         = Some (lit "HMAC Client=" ++ client self ++ rest).
Proof.
  intros Hs.
  destruct (create_authenticated_headers_shape self now m p content Hs)
    as (url & ch & sig & Hurl & Hch & Hsig & ->).
  eexists. split; [reflexivity|].
  destruct (Py.truthy_opt content) eqn:Ht; cbv beta iota zeta.
  - split_and!.
    + rewrite !dom_insert_L, dom_empty_L.
      unfold TIME_STAMP_HEADER_NAME, CONTENT_HASH_HEADER_NAME. set_solver.
    + lookup_header. reflexivity.
    + lookup_header. reflexivity.
    + discriminate.
    + eexists. lookup_header. reflexivity.
  - split_and!.
    + rewrite !dom_insert_L, dom_empty_L.
      unfold TIME_STAMP_HEADER_NAME, CONTENT_HASH_HEADER_NAME. set_solver.
    + lookup_header. reflexivity.
    + lookup_header. reflexivity.
    + intros _. lookup_header.
      unfold calculate_content_hash in Hch. rewrite Ht in Hch.
      injection Hch as <-. reflexivity.
    + eexists. lookup_header. reflexivity.
Qed.

(** C7. In every signing operation the signature is taken over the
    string that lists host, timestamp and content hash in this order
    after the method and the path and query, and the [SignedHeaders]
    component of the emitted [Authorization] header is always
    [host;x-timestamp;x-content-sha256]. *)
Theorem signed_headers_fixed_order
    (self : t) (now : Q) (m p : pystr) (content : option pystr)
    (url : ParseResult) :
  urlparse (base_url self ++ p) = Ok url ->
  signable self m p content = true ->
  exists (headers : gmap pystr pystr) (content_hash signature : pystr),
    create_authenticated_headers self now m p content = Ok headers
    /\ calculate_content_hash self content = Ok content_hash
    /\ generate_signature self
         (Py.upper m ++ [10%N] ++ path_and_query url ++ [10%N]
            ++ netloc url ++ lit ";" ++ Py.str (Py.int now) ++ lit ";"
            ++ content_hash) = Ok signature
    /\ headers !! lit "Authorization"
       = Some (lit "HMAC Client=" ++ client self
                 ++ lit "&SignedHeaders=host;x-timestamp;x-content-sha256&Signature="
                 ++ signature).
Proof.
  intros Hurl Hs.
  destruct (create_authenticated_headers_shape self now m p content Hs)
    as (url' & ch & sig & Hurl' & Hch & Hsig & ->).
  rewrite Hurl in Hurl'. injection Hurl' as <-.
  eexists _, ch, sig. split_and!; [reflexivity | assumption | exact Hsig |].
  cbv zeta. rewrite <- generate_authorization_header_default.
  destruct (Py.truthy_opt content); lookup_header; reflexivity.
Qed.

(** C8. Signing is deterministic: two runs with the same client
    identifier, secret and base URL, the same method, path and content,
    and clock readings that fall in the same second give the same
    outcome, signature included.  Nothing else enters: not the rest of
    the client's state, not the fraction of the clock reading. *)
Theorem signing_deterministic
    (self1 self2 : t) (now1 now2 : Q) (m p : pystr) (content : option pystr) :
  client self1 = client self2 ->
  secret self1 = secret self2 ->
  base_url self1 = base_url self2 ->
  Py.int now1 = Py.int now2 ->
  create_authenticated_headers self1 now1 m p content
  = create_authenticated_headers self2 now2 m p content.
Proof.
  intros Hc Hk Hb Hn. unfold create_authenticated_headers.
  rewrite Hb, Hn, (calculate_content_hash_self self1 self2).
  destruct (urlparse (base_url self2 ++ p)) as [url|]; simpl; [|reflexivity].
  destruct (calculate_content_hash self2 content) as [ch|]; simpl; [|reflexivity].
  rewrite !generate_signature_eq, Hk.
  change (create_string_to_sign self1) with (create_string_to_sign self2).
  destruct (Py.utf8_encode _); simpl; [|reflexivity].
  unfold generate_authorization_header. rewrite Hc. reflexivity.
Qed.

(** C9, as amended.  For every client, whatever its identifier and secret,
    empty ones included, and every clock reading, method, path and
    content such that [urlparse] returns on the base URL followed by the
    path and such that the content, the upper-cased method, the parsed
    path and query and the parsed host hold no lone surrogate,
    [create_authenticated_headers] returns a header mapping. *)
Theorem create_authenticated_headers_returns
    (self : t) (now : Q) (m p : pystr) (content : option pystr) :
  signable self m p content = true ->
  exists headers : gmap pystr pystr,
    create_authenticated_headers self now m p content = Ok headers.
Proof.
  intros Hs. apply returns_ok.
  rewrite create_authenticated_headers_returns_iff. exact Hs.
Qed.

(** C10. The emitted headers are self-consistent: the signature carried
    by the [Authorization] value is [generate_signature] of
    [create_string_to_sign] applied to the method, the path and query,
    and the three values found under [Host], [x-timestamp] and
    [x-content-sha256] in the same mapping. *)
Theorem signature_round_trip
    (self : t) (now : Q) (m p : pystr) (content : option pystr)
    (url : ParseResult) :
  urlparse (base_url self ++ p) = Ok url ->
  signable self m p content = true ->
  exists (headers : gmap pystr pystr) (h ts c signature : pystr),
    create_authenticated_headers self now m p content = Ok headers
    /\ headers !! lit "Host" = Some h
    /\ headers !! lit "x-timestamp" = Some ts
    /\ headers !! lit "x-content-sha256" = Some c
    /\ generate_signature self
         (create_string_to_sign self m (path_and_query url) [h; ts; c])
       = Ok signature
    /\ headers !! lit "Authorization"
       = Some (lit "HMAC Client=" ++ client self
                 ++ lit "&SignedHeaders=host;x-timestamp;x-content-sha256&Signature="
                 ++ signature).
Proof.
  intros Hurl Hs.
  destruct (create_authenticated_headers_shape self now m p content Hs)
    as (url' & ch & sig & Hurl' & Hch & Hsig & ->).
  rewrite Hurl in Hurl'. injection Hurl' as <-.
  eexists _, (netloc url), (Py.str (Py.int now)), ch, sig.
  split; [reflexivity|]. cbv zeta.
  rewrite <- generate_authorization_header_default.
  destruct (Py.truthy_opt content);
    (split_and!;
     [lookup_header; reflexivity .. | exact Hsig | lookup_header; reflexivity]).
Qed.

End Methods.

(** ** The properties at the requests of the unit tests *)

Lemma generate_signature_hmac_sha256_witness :
  __init__ (lit "TestClient") (lit "test-secret") (lit "https://api.example.com")
  = Ok test_client
  /\ exists key,
       Py.utf8_encode (lit "test-secret") = Ok key
       /\ generate_signature test_client (lit "GET")
          = (fun msg => Py.ascii_str (Base64.b64encode (HMAC.digest key msg)))
              <$> Py.utf8_encode (lit "GET").
Proof.
  split; [vm_compute; reflexivity|].
  destruct (generate_signature_hmac_sha256 (lit "TestClient") (lit "test-secret")
              (lit "https://api.example.com") test_client)
    as (key & Hkey & Hsig); [vm_compute; reflexivity|].
  exists key. split; [exact Hkey | exact (Hsig (lit "GET"))].
Defined.

Lemma calculate_content_hash_sha256_witness :
  Py.truthy (lit "abc") = true
  /\ calculate_content_hash test_client (Some (lit "abc"))
     = Ok (lit "ungWv48Bz+pBQUDeXa4iI7ADYaOWF3qctBD/YfIAFa0=").
Proof.
  split; [reflexivity|].
  rewrite (calculate_content_hash_sha256 test_client (lit "abc")); [|reflexivity].
  vm_compute. reflexivity.
Defined.

(** The scenario of C6: the client [TestClient] with base URL
    [https://api.example.com], [GET /api/test] without a body, the clock
    frozen at 1234567890. *)
Lemma frozen_clock_scenario :
  signable (rt := reference_runtime) test_client (lit "GET") (lit "/api/test") None
  = true
  /\ exists headers : gmap pystr pystr,
       create_authenticated_headers (rt := reference_runtime) test_client
         (1234567890 # 1) (lit "GET") (lit "/api/test") None = Ok headers
       /\ dom headers
          = {[lit "Host"; lit "x-timestamp"; lit "x-content-sha256";
              lit "Authorization"]}
       /\ headers !! lit "x-timestamp" = Some (lit "1234567890")
       /\ headers !! lit "x-content-sha256" = Some EMPTY_CONTENT_HASH
       /\ (exists rest,
             headers !! lit "Authorization"
             = Some (lit "HMAC Client=TestClient" ++ rest))
       /\ headers !! lit "Content-Type" = None.
Proof.
  split; [vm_compute; reflexivity|].
  destruct (create_authenticated_headers_keys (rt := reference_runtime) test_client
              (1234567890 # 1) (lit "GET") (lit "/api/test") None)
    as (hs & Hhs & Hdom & Hct & Hts & Hch & rest & Hauth);
    [vm_compute; reflexivity|].
  exists hs. split_and!.
  - exact Hhs.
  - rewrite Hdom. apply union_empty_r_L.
  - exact Hts.
  - apply Hch. reflexivity.
  - exists rest. exact Hauth.
  - exact Hct.
Defined.

Lemma signed_headers_fixed_order_witness :
  urlparse (Runtime := reference_runtime)
    (base_url test_client ++ lit "/api/test?page=2") = Ok test_url
  /\ signable (rt := reference_runtime) test_client (lit "post")
       (lit "/api/test?page=2") (Some (lit "abc")) = true
  /\ exists (headers : gmap pystr pystr) (content_hash signature : pystr),
       create_authenticated_headers (rt := reference_runtime) test_client
         (1234567890 # 1) (lit "post") (lit "/api/test?page=2")
         (Some (lit "abc")) = Ok headers
       /\ calculate_content_hash test_client (Some (lit "abc")) = Ok content_hash
       /\ generate_signature test_client
            (lit "POST" ++ [10%N] ++ lit "/api/test?page=2" ++ [10%N]
               ++ lit "api.example.com" ++ lit ";" ++ lit "1234567890"
               ++ lit ";" ++ content_hash) = Ok signature
       /\ headers !! lit "Authorization"
          = Some (lit "HMAC Client=" ++ lit "TestClient"
                    ++ lit "&SignedHeaders=host;x-timestamp;x-content-sha256&Signature="
                    ++ signature).
Proof.
  split; [vm_compute; reflexivity|]. split; [vm_compute; reflexivity|].
  apply (signed_headers_fixed_order (rt := reference_runtime) test_client
           (1234567890 # 1) (lit "post") (lit "/api/test?page=2")
           (Some (lit "abc")) test_url); vm_compute; reflexivity.
Defined.

Lemma signing_deterministic_witness :
  client test_client = client no_verify_client
  /\ secret test_client = secret no_verify_client
  /\ base_url test_client = base_url no_verify_client
  /\ Py.int (1234567890 # 1) = Py.int (12345678909 # 10)
  /\ create_authenticated_headers (rt := reference_runtime) test_client
       (1234567890 # 1) (lit "GET") (lit "/api/test") None
     = create_authenticated_headers (rt := reference_runtime) no_verify_client
         (12345678909 # 10) (lit "GET") (lit "/api/test") None.
Proof.
  do 4 (split; [reflexivity|]).
  apply (signing_deterministic (rt := reference_runtime)); reflexivity.
Defined.

(** C9 as stated fails: a body that holds a lone surrogate is a [str],
    and signing it raises. *)
Lemma signing_raises_on_lone_surrogate :
  create_authenticated_headers (rt := reference_runtime) test_client
    (1234567890 # 1) (lit "POST") (lit "/api/test") (Some [0xD800%N])
  = Raise UnicodeEncodeError.
Proof. vm_compute. reflexivity. Qed.

(** So does a base URL that [urlparse] rejects. *)
Example signing_raises_on_rejected_url :
  (self ← __init__ (lit "TestClient") (lit "test-secret") (lit "http://[");
   create_authenticated_headers (rt := reference_runtime) self
     (1234567890 # 1) (lit "GET") (lit "/api/test") None)
  = Raise ValueError.
Proof. vm_compute. reflexivity. Qed.

Lemma create_authenticated_headers_returns_witness :
  signable (rt := reference_runtime) anonymous_client (lit "GET")
    (lit "/api/test") None = true
  /\ exists headers : gmap pystr pystr,
       create_authenticated_headers (rt := reference_runtime) anonymous_client
         (1234567890 # 1) (lit "GET") (lit "/api/test") None = Ok headers.
Proof.
  split; [vm_compute; reflexivity|].
  apply (create_authenticated_headers_returns (rt := reference_runtime));
    vm_compute; reflexivity.
Defined.

Lemma signature_round_trip_witness :
  urlparse (Runtime := reference_runtime)
    (base_url test_client ++ lit "/api/test?page=2") = Ok test_url
  /\ signable (rt := reference_runtime) test_client (lit "GET")
       (lit "/api/test?page=2") None = true
  /\ exists (headers : gmap pystr pystr) (h ts c signature : pystr),
       create_authenticated_headers (rt := reference_runtime) test_client
         (1234567890 # 1) (lit "GET") (lit "/api/test?page=2") None = Ok headers
       /\ headers !! lit "Host" = Some h
       /\ headers !! lit "x-timestamp" = Some ts
       /\ headers !! lit "x-content-sha256" = Some c
       /\ generate_signature test_client
            (create_string_to_sign (rt := reference_runtime) test_client
               (lit "GET") (lit "/api/test?page=2") [h; ts; c])
          = Ok signature
       /\ headers !! lit "Authorization"
          = Some (lit "HMAC Client=" ++ lit "TestClient"
                    ++ lit "&SignedHeaders=host;x-timestamp;x-content-sha256&Signature="
                    ++ signature).
Proof.
  split; [vm_compute; reflexivity|]. split; [vm_compute; reflexivity|].
  apply (signature_round_trip (rt := reference_runtime) test_client
           (1234567890 # 1) (lit "GET") (lit "/api/test?page=2") None test_url);
    vm_compute; reflexivity.
Defined.
(** * Further properties *)

(** ** Strings *)

Lemma startswith_spec s prefix :
  Py.startswith s prefix = true <-> exists rest, s = prefix ++ rest.
Proof.
  revert s. induction prefix as [|c prefix IH]; intros s; simpl.
  - destruct s; (split; [eauto | reflexivity]).
  - destruct s as [|x s]; simpl.
    + split; [discriminate | intros [rest Hr]; discriminate Hr].
    + rewrite andb_true_iff, N.eqb_eq, IH. split.
      * intros [-> [rest ->]]. eauto.
      * intros [rest [= -> ->]]. eauto.
Qed.

Lemma contains_nil needle : Py.contains needle [] = Py.startswith [] needle.
Proof. unfold Py.contains. apply orb_false_r. Qed.

Lemma contains_cons needle x hay :
  Py.contains needle (x :: hay)
  = Py.startswith (x :: hay) needle || Py.contains needle hay.
Proof. reflexivity. Qed.

Lemma contains_spec needle hay :
  Py.contains needle hay = true
  <-> exists before after, hay = before ++ needle ++ after.
Proof.
  induction hay as [|x hay IH].
  - rewrite contains_nil, startswith_spec. split.
    + intros [rest Hr]. exists [], rest. exact Hr.
    + intros (before & after & Hh). symmetry in Hh.
      apply app_eq_nil in Hh as [-> Hh]. apply app_eq_nil in Hh as [-> ->].
      exists []. reflexivity.
  - rewrite contains_cons, orb_true_iff, startswith_spec, IH. split.
    + intros [[rest Hr] | (before & after & ->)].
      * exists [], rest. exact Hr.
      * exists (x :: before), after. reflexivity.
    + intros (before & after & Hh). destruct before as [|y before].
      * left. exists after. exact Hh.
      * right. injection Hh as -> ->. eauto.
Qed.

Lemma rstrip_suffix c s : exists n, s = Py.rstrip c s ++ repeat c n.
Proof.
  induction s as [|x s [n Hs]]; simpl.
  - exists 0%nat. reflexivity.
  - destruct (Py.rstrip c s) as [|y r] eqn:Hr.
    + destruct (N.eqb_spec x c) as [->|Hx].
      * exists (S n). simpl in *. congruence.
      * exists n. simpl in *. congruence.
    + exists n. simpl in *. congruence.
Qed.

Lemma rstrip_last c s s' : Py.rstrip c s <> s' ++ [c].
Proof.
  revert s'. induction s as [|x s IH]; intros s'; simpl.
  - apply app_cons_not_nil.
  - destruct (Py.rstrip c s) as [|y r] eqn:Hr.
    + destruct (N.eqb_spec x c) as [->|Hx]; [apply app_cons_not_nil|].
      destruct s' as [|z s']; simpl; [congruence|].
      intros [= _ E]. exact (app_cons_not_nil _ _ _ E).
    + destruct s' as [|z s']; simpl; [discriminate|].
      intros [= _ E]. exact (IH s' E).
Qed.

Lemma rstrip_repeat c n : Py.rstrip c (repeat c n) = [].
Proof.
  induction n as [|n IH]; simpl; [reflexivity|].
  rewrite IH, N.eqb_refl. reflexivity.
Qed.

Lemma rstrip_app_repeat c s n : Py.rstrip c (s ++ repeat c n) = Py.rstrip c s.
Proof.
  induction s as [|x s IH]; simpl.
  - apply rstrip_repeat.
  - rewrite IH. reflexivity.
Qed.

Lemma join_cons sep p q rest :
  Py.join sep (p :: q :: rest) = p ++ sep ++ Py.join sep (q :: rest).
Proof. reflexivity. Qed.

Lemma join_merge sep xs a b ys :
  Py.join sep (xs ++ a :: b :: ys) = Py.join sep (xs ++ (a ++ sep ++ b) :: ys).
Proof.
  induction xs as [|x xs IH].
  - cbn [app]. rewrite join_cons. destruct ys as [|y ys].
    + reflexivity.
    + rewrite !join_cons, <- !app_assoc. reflexivity.
  - destruct xs as [|x' xs].
    + cbn [app] in *.
      rewrite (join_cons sep x a), (join_cons sep x (a ++ sep ++ b)), IH.
      reflexivity.
    + cbn [app] in *. rewrite !(join_cons sep x x'), IH. reflexivity.
Qed.

Lemma delimiter_unique (c : N) (a a' r r' : pystr) :
  c ∉ a -> c ∉ a' -> a ++ c :: r = a' ++ c :: r' -> a = a' /\ r = r'.
Proof.
  revert a'. induction a as [|x a IH]; intros [|x' a'] Ha Ha'; simpl.
  - intros [= <-]. split; reflexivity.
  - intros [= <- _]. exfalso. apply Ha'. left.
  - intros [= -> _]. exfalso. apply Ha. left.
  - intros [= <- E]. apply not_elem_of_cons in Ha as [_ Ha].
    apply not_elem_of_cons in Ha' as [_ Ha'].
    destruct (IH a' Ha Ha' E) as [-> ->]. split; reflexivity.
Qed.

Lemma join_injective (c : N) (xs ys : list pystr) :
  Forall (fun x => c ∉ x) xs -> Forall (fun y => c ∉ y) ys ->
  xs <> [] -> ys <> [] ->
  Py.join [c] xs = Py.join [c] ys -> xs = ys.
Proof.
  revert ys. induction xs as [|x xs IH]; intros ys Hxs Hys Hx Hy; [contradiction|].
  destruct ys as [|y ys]; [contradiction|].
  apply Forall_cons_1 in Hxs as [Hcx Hxs]. apply Forall_cons_1 in Hys as [Hcy Hys].
  destruct xs as [|x' xs], ys as [|y' ys].
  - simpl. intros ->. reflexivity.
  - rewrite join_cons. cbn [Py.join app]. intros ->.
    exfalso. apply Hcx. apply elem_of_app. right. left.
  - rewrite join_cons. cbn [Py.join app]. intros <-.
    exfalso. apply Hcy. apply elem_of_app. right. left.
  - rewrite !join_cons. cbn [app]. intros E.
    destruct (delimiter_unique c _ _ _ _ Hcx Hcy E) as [-> E'].
    f_equal. apply IH; try assumption; discriminate.
Qed.

Lemma contains_char c s : Py.contains [c] s = false <-> c ∉ s.
Proof.
  rewrite <- not_true_iff_false, contains_spec. split.
  - intros Hn Hin. apply Hn. apply list_elem_of_split in Hin as (l1 & l2 & ->).
    exists l1, l2. reflexivity.
  - intros Hn (l1 & l2 & ->). apply Hn. apply elem_of_app. right. left.
Qed.

Lemma utf8_encode_raises s e : Py.utf8_encode s = Raise e -> e = UnicodeEncodeError.
Proof.
  induction s as [|c s IH]; simpl; [discriminate|].
  destruct (Py.utf8_encode_cp c) as [b|e'] eqn:Hc; simpl.
  - destruct (Py.utf8_encode s); simpl; [discriminate|].
    intros [= <-]. apply IH. reflexivity.
  - intros [= <-]. unfold Py.utf8_encode_cp in Hc.
    repeat match type of Hc with
    | context [if ?b then _ else _] => destruct b
    end; congruence.
Qed.

(** X1. The constructor raises exactly when the secret has no UTF-8
    encoding, and then with [UnicodeEncodeError]; otherwise it keeps the
    client identifier as given and stores the secret encoded. *)
Theorem init_outcome (cid k u : pystr) :
  match __init__ cid k u with
  | Ok self =>
      Py.encodable k = true /\ client self = cid
      /\ Py.utf8_encode k = Ok (secret self)
  | Raise e => Py.encodable k = false /\ e = UnicodeEncodeError
  end.
Proof.
  unfold __init__. rewrite <- utf8_encode_returns.
  destruct (Py.utf8_encode k) as [key|e] eqn:Hk; simpl.
  - auto.
  - split; [reflexivity|]. apply (utf8_encode_raises k). exact Hk.
Qed.

(** X2. The stored base URL is the argument without its trailing
    slashes: the argument is the stored URL followed by slashes only, and
    the stored URL does not end with a slash. *)
Theorem init_strips_trailing_slashes (cid k u : pystr) (self : t) :
  __init__ cid k u = Ok self ->
  (exists n, u = base_url self ++ repeat 0x2F%N n)
  /\ forall s, base_url self <> s ++ lit "/".
Proof.
  unfold __init__. destruct (Py.utf8_encode k); simpl; [|discriminate].
  intros [= <-]. simpl. split; [apply rstrip_suffix | apply rstrip_last].
Qed.

(** X3. Certificate verification is switched off exactly when
    [localhost] or [127.0.0.1] occurs somewhere in the base URL as given,
    wherever that is: the test is a substring test, not a test of the
    host. *)
Theorem init_verify_off_iff_local (cid k u : pystr) (self : t) :
  __init__ cid k u = Ok self ->
  session_verify self = false
  <-> (exists before after, u = before ++ lit "localhost" ++ after)
      \/ (exists before after, u = before ++ lit "127.0.0.1" ++ after).
Proof.
  unfold __init__. destruct (Py.utf8_encode k); simpl; [|discriminate].
  intros [= <-]. simpl.
  rewrite negb_false_iff, orb_true_iff, !contains_spec. reflexivity.
Qed.

(** ** The canonical string and the header value *)

Section Canonical.

Context {rt : Runtime}.

Lemma upper_cp_ascii c :
  (c <? 0x80)%N = true ->
  exists c', Py.upper_cp c = [c'] /\ (c' <? 0x80)%N = true
             /\ ((0x61 <=? c')%N && (c' <=? 0x7A)%N) = false.
Proof.
  intros Hc. unfold Py.upper_cp. rewrite Hc.
  destruct ((0x61 <=? c)%N && (c <=? 0x7A)%N) eqn:Hl.
  - exists (c - 0x20)%N. split; [reflexivity|].
    apply andb_true_iff in Hl as [H1%N.leb_le H2%N.leb_le].
    split; [apply N.ltb_lt; lia|].
    apply andb_false_iff. left. apply N.leb_gt. lia.
  - exists c. auto.
Qed.

Lemma upper_ascii_idempotent m :
  forallb (fun c => (c <? 0x80)%N) m = true -> Py.upper (Py.upper m) = Py.upper m.
Proof.
  unfold Py.upper. induction m as [|c m IH]; simpl; [reflexivity|].
  intros [Hc Hm]%andb_true_iff.
  destruct (upper_cp_ascii c Hc) as (c' & -> & Hc' & Hl). simpl.
  rewrite (IH Hm). unfold Py.upper_cp at 1. rewrite Hl, Hc'. reflexivity.
Qed.

(** X4. The case of an ASCII method does not matter: the method and its
    upper-cased form give the same string to sign. *)
Theorem string_to_sign_method_case (self : t) (m p : pystr) (hs : list pystr) :
  forallb (fun c => (c <? 0x80)%N) m = true ->
  create_string_to_sign self (Py.upper m) p hs = create_string_to_sign self m p hs.
Proof.
  intros Hm. unfold create_string_to_sign. rewrite (upper_ascii_idempotent m Hm).
  reflexivity.
Qed.

(** X5. Header values are joined without escaping: two neighbouring
    values [a] and [b] give the same string to sign as the single value
    [a;b]. *)
Theorem string_to_sign_delimiter_not_escaped
    (self : t) (m p a b : pystr) (before after : list pystr) :
  create_string_to_sign self m p (before ++ [a; b] ++ after)
  = create_string_to_sign self m p (before ++ [a ++ lit ";" ++ b] ++ after).
Proof.
  unfold create_string_to_sign. cbn [app]. rewrite join_merge. reflexivity.
Qed.

(** X6. Where the delimiters do not occur inside the parts, the string
    to sign determines them: if the upper-cased methods and the paths
    hold no line feed and the header values of two non-empty lists hold no
    semicolon, equal strings to sign come from equal upper-cased methods,
    equal paths and equal header values. *)
Theorem string_to_sign_injective
    (self self' : t) (m m' p p' : pystr) (hs hs' : list pystr) :
  Py.contains [10%N] (Py.upper m) = false ->
  Py.contains [10%N] (Py.upper m') = false ->
  Py.contains [10%N] p = false ->
  Py.contains [10%N] p' = false ->
  forallb (fun h => negb (Py.contains (lit ";") h)) hs = true ->
  forallb (fun h => negb (Py.contains (lit ";") h)) hs' = true ->
  (0 < length hs)%nat -> (0 < length hs')%nat ->
  create_string_to_sign self m p hs = create_string_to_sign self' m' p' hs' ->
  Py.upper m = Py.upper m' /\ p = p' /\ hs = hs'.
Proof.
  intros Hm%contains_char Hm'%contains_char Hp%contains_char Hp'%contains_char
    Hhs Hhs' Hl Hl'.
  unfold create_string_to_sign. cbn [app]. intros E.
  destruct (delimiter_unique _ _ _ _ _ Hm Hm' E) as [-> E1].
  destruct (delimiter_unique _ _ _ _ _ Hp Hp' E1) as [-> E2].
  split; [reflexivity|]. split; [reflexivity|].
  apply (join_injective 59%N); try (destruct hs, hs'; simpl in *; congruence || lia).
  - apply Forall_forall. intros h Hin. rewrite forallb_forall in Hhs.
    apply contains_char, negb_true_iff, Hhs, list_elem_of_In, Hin.
  - apply Forall_forall. intros h Hin. rewrite forallb_forall in Hhs'.
    apply contains_char, negb_true_iff, Hhs', list_elem_of_In, Hin.
  - exact E2.
Qed.

End Canonical.

Lemma join_free (c s : N) (xs : list pystr) :
  c <> s -> Forall (fun x => c ∉ x) xs -> c ∉ Py.join [s] xs.
Proof.
  intros Hcs. induction xs as [|x xs IH]; intros Hxs.
  - apply not_elem_of_nil.
  - apply Forall_cons_1 in Hxs as [Hx Hxs]. destruct xs as [|y ys]; [exact Hx|].
    rewrite join_cons. rewrite !not_elem_of_app. split; [exact Hx|].
    split; [|apply IH, Hxs].
    intros Hin%list_elem_of_singleton. contradiction.
Qed.

(** X7. Where the delimiters do not occur inside the parts, the
    [Authorization] value determines them: client identifiers without
    [&] and non-empty lists of header names without [&] and [;] give
    equal values only if identifier, names and signature agree. *)
Theorem authorization_header_injective
    (self self' : t) (hs hs' : list pystr) (sig sig' : pystr) :
  Py.contains (lit "&") (client self) = false ->
  Py.contains (lit "&") (client self') = false ->
  forallb (fun h => negb (Py.contains (lit "&") h || Py.contains (lit ";") h)) hs
  = true ->
  forallb (fun h => negb (Py.contains (lit "&") h || Py.contains (lit ";") h)) hs'
  = true ->
  (0 < length hs)%nat -> (0 < length hs')%nat ->
  generate_authorization_header self hs sig
  = generate_authorization_header self' hs' sig' ->
  client self = client self' /\ hs = hs' /\ sig = sig'.
Proof.
  intros Hc%contains_char Hc'%contains_char Hhs Hhs' Hl Hl'.
  assert (Hfree : forall l,
    forallb (fun h => negb (Py.contains (lit "&") h || Py.contains (lit ";") h)) l
    = true ->
    Forall (fun h => 38%N ∉ h) l /\ Forall (fun h => 59%N ∉ h) l).
  { intros l Hall. rewrite forallb_forall in Hall.
    split; apply Forall_forall; intros h Hin%list_elem_of_In%Hall;
      apply negb_true_iff, orb_false_iff in Hin as [H1 H2];
      apply contains_char; assumption. }
  destruct (Hfree hs Hhs) as [Hamp Hsemi].
  destruct (Hfree hs' Hhs') as [Hamp' Hsemi'].
  unfold generate_authorization_header.
  change DEFAULT_SCHEME_NAME with (lit "HMAC").
  change (lit "&SignedHeaders=") with (38%N :: lit "SignedHeaders=").
  change (lit "&Signature=") with (38%N :: lit "Signature=").
  intros E. apply app_inv_head in E. apply app_inv_head in E.
  destruct (delimiter_unique _ _ _ _ _ Hc Hc' E) as [Hcl E1].
  apply (app_inv_head (lit "SignedHeaders=")) in E1.
  assert (Hj : 38%N ∉ Py.join (lit ";") hs) by (apply join_free; [discriminate | exact Hamp]).
  assert (Hj' : 38%N ∉ Py.join (lit ";") hs') by (apply join_free; [discriminate | exact Hamp']).
  destruct (delimiter_unique _ _ _ _ _ Hj Hj' E1) as [E2 E3].
  apply (app_inv_head (lit "Signature=")) in E3. split; [exact Hcl|]. split; [|exact E3].
  apply (join_injective 59%N); try assumption.
  - destruct hs; [simpl in Hl; lia | discriminate].
  - destruct hs'; [simpl in Hl'; lia | discriminate].
Qed.

(** X8. The [Authorization] value is built without escaping: a client
    identifier that continues with [&SignedHeaders=] and a name yields the
    value of the shorter identifier with that name moved into the header
    list. *)
Theorem authorization_header_not_escaped
    (self self' : t) (x y sig : pystr) :
  client self' = client self ++ lit "&SignedHeaders=" ++ x ->
  generate_authorization_header self' [y] sig
  = generate_authorization_header self [x ++ lit "&SignedHeaders=" ++ y] sig.
Proof.
  intros Hc. unfold generate_authorization_header. rewrite Hc.
  cbn [Py.join]. rewrite <- !app_assoc. reflexivity.
Qed.

Lemma sextet_in_alphabet n : In (Base64.sextet n) Base64.alphabet.
Proof.
  unfold Base64.sextet. apply nth_In.
  change 63%N with (N.ones 6). rewrite N.land_ones.
  change (length Base64.alphabet) with (N.to_nat 64).
  assert (Hlt : (n mod 2 ^ 6 < 64)%N) by (apply N.mod_lt; discriminate).
  lia.
Qed.

Lemma b64encode_padded bs :
  (length bs mod 3 = 2)%nat ->
  exists body,
    Base64.b64encode bs = body ++ [Base64.pad_char]
    /\ Forall (fun b => In b Base64.alphabet) body.
Proof.
  cut (forall n bs, (length bs <= n)%nat -> (length bs mod 3 = 2)%nat ->
         exists body,
           Base64.b64encode bs = body ++ [Base64.pad_char]
           /\ Forall (fun b => In b Base64.alphabet) body).
  { intros Hn. apply (Hn (length bs)). lia. }
  clear bs. intros n. induction n as [n IH] using lt_wf_ind. intros bs Hlen Hmod.
  destruct bs as [|x [|y [|z rest]]]; try discriminate Hmod.
  - eexists [_; _; _]. split; [reflexivity|].
    repeat (constructor; [apply sextet_in_alphabet|]). constructor.
  - destruct (IH (length rest)) with (bs := rest) as (body & Hb & Hall).
    + simpl in Hlen. lia.
    + lia.
    + revert Hmod. cbn [length].
      replace (S (S (S (length rest)))) with (length rest + 1 * 3)%nat by lia.
      rewrite Nat.Div0.mod_add. trivial.
    + cbn [Base64.b64encode]. rewrite Hb.
      eexists (_ :: _ :: _ :: _ :: body). split; [reflexivity|].
      repeat (constructor; [apply sextet_in_alphabet|]). exact Hall.
Qed.

Lemma digest_text_shape (d : bytes) :
  length d = 32%nat ->
  exists body,
    Py.ascii_str (Base64.b64encode d) = body ++ lit "="
    /\ length body = 43%nat
    /\ Forall (fun c => c ∈ base64_alphabet) body.
Proof.
  intros Hd. destruct (b64encode_padded d) as (body & Hb & Hall);
    [rewrite Hd; reflexivity|].
  exists (Py.ascii_str body). split_and!.
  - rewrite Hb. unfold Py.ascii_str. rewrite map_app. reflexivity.
  - pose proof (b64encode_length d) as Hl. rewrite Hb, Hd, length_app in Hl.
    unfold Py.ascii_str. rewrite length_map. simpl in Hl. lia.
  - unfold Py.ascii_str. apply Forall_map. eapply Forall_impl; [exact Hall|].
    intros b Hin. apply list_elem_of_In.
    change base64_alphabet with (map Byte.to_N Base64.alphabet).
    apply in_map. exact Hin.
Qed.

Lemma not_in_digest_text (c : N) (body : pystr) :
  c ∉ base64_alphabet -> c <> 61%N ->
  Forall (fun x => x ∈ base64_alphabet) body ->
  Py.contains [c] (body ++ lit "=") = false.
Proof.
  intros Hc Hpad Hall. apply contains_char. rewrite not_elem_of_app. split.
  - intros Hin. rewrite Forall_forall in Hall. apply Hc, Hall, Hin.
  - intros Hin%list_elem_of_singleton. contradiction.
Qed.

Lemma not_elem_of_by_test (c : N) (l : pystr) :
  forallb (fun x => negb (x =? c)%N) l = true -> c ∉ l.
Proof.
  rewrite forallb_forall. intros Hall Hin%list_elem_of_In.
  apply Hall, negb_true_iff, N.eqb_neq in Hin. contradiction.
Qed.

(** X9. Every signature returned is 43 characters of the base64 alphabet
    followed by one [=], and so holds neither [&] nor [;]. *)
Theorem signature_shape (self : t) (s sig : pystr) :
  generate_signature self s = Ok sig ->
  (exists body,
     sig = body ++ lit "=" /\ length body = 43%nat
     /\ Forall (fun c => c ∈ base64_alphabet) body)
  /\ Py.contains (lit "&") sig = false
  /\ Py.contains (lit ";") sig = false.
Proof.
  rewrite generate_signature_eq.
  destruct (Py.utf8_encode s) as [msg|]; simpl; [|discriminate].
  intros [= <-].
  destruct (digest_text_shape (HMAC.digest (secret self) msg))
    as (body & Hb & Hl & Hall); [apply sha256_digest_length|].
  split; [exists body; auto|]. rewrite Hb.
  split; apply not_in_digest_text;
    solve [exact Hall | discriminate | apply not_elem_of_by_test; reflexivity].
Qed.












(** ** Signing and sending *)

Section Requests.

Context {rt : Runtime}.

Lemma calculate_content_hash_eq (self : t) (content : option pystr) :
  calculate_content_hash self content
  = (fun body => Py.ascii_str (Base64.b64encode (SHA256.digest body)))
      <$> Py.utf8_encode (default [] content).
Proof.
  destruct content as [[|c s]|]; [vm_compute; reflexivity | | vm_compute; reflexivity].
  unfold calculate_content_hash.
  change (Py.truthy_opt (Some (c :: s))) with true.
  change (default [] (Some (c :: s))) with (c :: s).
  cbn [negb]. generalize (c :: s). intros text.
  destruct (Py.utf8_encode text); simpl; [apply b64_text | reflexivity].
Qed.

(** X10. The constant returned for an absent or empty body is no special
    case: for every content the result is the base64 text of the SHA-256
    digest of the UTF-8 encoding of the content, the empty string standing
    for [None]. *)
Theorem content_hash_uniform (self : t) (content : option pystr) :
  calculate_content_hash self content
  = (fun body => Py.ascii_str (Base64.b64encode (SHA256.digest body)))
      <$> Py.utf8_encode (default [] content).
Proof. apply calculate_content_hash_eq. Qed.

(** X11. Every content hash returned is 43 characters of the base64
    alphabet followed by one [=], and so holds neither the [;] nor the
    line feed that delimit the string to sign. *)
Theorem content_hash_shape (self : t) (content : option pystr) (h : pystr) :
  calculate_content_hash self content = Ok h ->
  (exists body,
     h = body ++ lit "=" /\ length body = 43%nat
     /\ Forall (fun c => c ∈ base64_alphabet) body)
  /\ Py.contains (lit ";") h = false
  /\ Py.contains [10%N] h = false.
Proof.
  rewrite calculate_content_hash_eq.
  destruct (Py.utf8_encode (default [] content)) as [msg|]; simpl; [|discriminate].
  intros [= <-].
  destruct (digest_text_shape (SHA256.digest msg))
    as (body & Hb & Hl & Hall); [apply sha256_digest_length|].
  split; [exists body; auto|]. rewrite Hb.
  split; apply not_in_digest_text;
    solve [exact Hall | discriminate | apply not_elem_of_by_test; reflexivity].
Qed.

Lemma headers_depend_on_fields (self1 self2 : t) now m p content :
  client self1 = client self2 ->
  secret self1 = secret self2 ->
  base_url self1 = base_url self2 ->
  create_authenticated_headers self1 now m p content
  = create_authenticated_headers self2 now m p content.
Proof.
  intros Hc Hk Hb. unfold create_authenticated_headers.
  rewrite Hb, (calculate_content_hash_self self1 self2).
  destruct (urlparse (base_url self2 ++ p)) as [url|]; simpl; [|reflexivity].
  destruct (calculate_content_hash self2 content) as [ch|]; simpl; [|reflexivity].
  rewrite !generate_signature_eq, Hk.
  change (create_string_to_sign self1) with (create_string_to_sign self2).
  destruct (Py.utf8_encode _); simpl; [|reflexivity].
  unfold generate_authorization_header. rewrite Hc. reflexivity.
Qed.

(** X12. Trailing slashes of the base URL do not change what is signed:
    clients constructed from a base URL and from the same URL followed by
    slashes produce the same outcome on every request. *)
Theorem trailing_slash_insensitive
    (cid k u : pystr) (n : nat) (self1 self2 : t)
    (now : Q) (m p : pystr) (content : option pystr) :
  __init__ cid k u = Ok self1 ->
  __init__ cid k (u ++ repeat 0x2F%N n) = Ok self2 ->
  create_authenticated_headers self1 now m p content
  = create_authenticated_headers self2 now m p content.
Proof.
  unfold __init__. destruct (Py.utf8_encode k); simpl; [|discriminate].
  intros [= <-] [= <-]. apply headers_depend_on_fields; simpl; try reflexivity.
  symmetry. apply rstrip_app_repeat.
Qed.

Lemma content_hash_raises self content e :
  calculate_content_hash self content = Raise e -> e = UnicodeEncodeError.
Proof.
  rewrite calculate_content_hash_eq.
  destruct (Py.utf8_encode (default [] content)) eqn:He; simpl; [discriminate|].
  intros [= <-]. eapply utf8_encode_raises, He.
Qed.

Lemma generate_signature_raises self s e :
  generate_signature self s = Raise e -> e = UnicodeEncodeError.
Proof.
  rewrite generate_signature_eq.
  destruct (Py.utf8_encode s) eqn:He; simpl; [discriminate|].
  intros [= <-]. eapply utf8_encode_raises, He.
Qed.

(** X13. [create_authenticated_headers] raises only what [urlparse]
    raised, or [UnicodeEncodeError]; the decoding of base64 output never
    fails. *)
Theorem headers_exceptions
    (self : t) (now : Q) (m p : pystr) (content : option pystr) (e : exn) :
  create_authenticated_headers self now m p content = Raise e ->
  urlparse (base_url self ++ p) = Raise e \/ e = UnicodeEncodeError.
Proof.
  unfold create_authenticated_headers.
  destruct (urlparse (base_url self ++ p)) as [url|e']; simpl;
    [|intros [= <-]; left; reflexivity].
  destruct (calculate_content_hash self content) as [ch|e'] eqn:Hch; simpl;
    [|intros [= <-]; right; eapply content_hash_raises, Hch].
  destruct (generate_signature self _) as [sig|e'] eqn:Hsig; simpl; [discriminate|].
  intros [= <-]. right. eapply generate_signature_raises, Hsig.
Qed.

(** X14. Of the parsed URL only host, path and query are signed: two
    paths whose parses agree on these three give the same outcome,
    whatever scheme, parameters and fragment are. *)
Theorem headers_depend_on_host_path_query
    (self : t) (now : Q) (m p1 p2 : pystr) (content : option pystr)
    (u1 u2 : ParseResult) :
  urlparse (base_url self ++ p1) = Ok u1 ->
  urlparse (base_url self ++ p2) = Ok u2 ->
  netloc u1 = netloc u2 -> path u1 = path u2 -> query u1 = query u2 ->
  create_authenticated_headers self now m p1 content
  = create_authenticated_headers self now m p2 content.
Proof.
  intros H1 H2 Hn Hp Hq. unfold create_authenticated_headers.
  rewrite H1, H2. simpl. unfold path_and_query. rewrite Hn, Hp, Hq. reflexivity.
Qed.

Lemma request_content_truthy json_data :
  Py.truthy_opt (request_content json_data) = truthy_dict json_data.
Proof. unfold request_content. destruct (truthy_dict json_data); reflexivity. Qed.


Lemma request_inv self now m p json_data call :
  request self now m p json_data = Ok call ->
  exists headers,
    create_authenticated_headers self now m p (request_content json_data)
    = Ok headers
    /\ call = {| call_method := Py.upper m; call_url := base_url self ++ p;
                 call_headers := headers;
                 call_data := request_content json_data |}.
Proof.
  unfold request. fold (request_content json_data).
  destruct (create_authenticated_headers self now m p _) as [hs|]; simpl;
    [|discriminate].
  intros [= <-]. exists hs. split; reflexivity.
Qed.


(** X16. [request] sends [Content-Type: application/json] exactly when
    it sends a body. *)
Theorem request_content_type_iff_body
    (self : t) (now : Q) (m p : pystr)
    (json_data : option (list (pystr * json.value))) (call : SessionCall) :
  request self now m p json_data = Ok call ->
  call_headers call !! lit "Content-Type"
  = (fun _ => lit "application/json") <$> call_data call.
Proof.
  intros (hs & Hhs & ->)%request_inv. cbn [call_headers call_data].
  apply create_authenticated_headers_inv in Hhs
    as (url & ch & sig & _ & _ & _ & ->). cbv zeta.
  rewrite request_content_truthy. unfold request_content.
  destruct (truthy_dict json_data); lookup_header; reflexivity.
Qed.

(** X17. The [x-content-sha256] header of the call is the base64 text
    of the SHA-256 digest of the UTF-8 encoding of the body handed to the
    transport, the empty octet sequence when no body is sent. *)
Theorem request_hash_matches_body
    (self : t) (now : Q) (m p : pystr)
    (json_data : option (list (pystr * json.value))) (call : SessionCall) :
  request self now m p json_data = Ok call ->
  exists body,
    Py.utf8_encode (default [] (call_data call)) = Ok body
    /\ call_headers call !! lit "x-content-sha256"
       = Some (Py.ascii_str (Base64.b64encode (SHA256.digest body))).
Proof.
  intros (hs & Hhs & ->)%request_inv. cbn [call_headers call_data].
  apply create_authenticated_headers_inv in Hhs
    as (url & ch & sig & _ & Hch & _ & ->). cbv zeta.
  rewrite calculate_content_hash_eq in Hch.
  destruct (Py.utf8_encode (default [] (request_content json_data))) as [body|];
    simpl in Hch; [|discriminate].
  injection Hch as <-. exists body. split; [reflexivity|].
  destruct (Py.truthy_opt (request_content json_data)); lookup_header; reflexivity.
Qed.

(** X18. The signature sent covers what is sent: it is taken over the
    method of the call, the path and query and the host of the URL of the
    call, and the timestamp and content hash among the headers of the
    call. *)
Theorem request_signature_covers_call
    (self : t) (now : Q) (m p : pystr)
    (json_data : option (list (pystr * json.value))) (call : SessionCall) :
  request self now m p json_data = Ok call ->
  exists (url : ParseResult) (ts hash sig : pystr),
    urlparse (call_url call) = Ok url
    /\ call_headers call !! lit "Host" = Some (netloc url)
    /\ call_headers call !! lit "x-timestamp" = Some ts
    /\ call_headers call !! lit "x-content-sha256" = Some hash
    /\ generate_signature self
         (call_method call ++ [10%N] ++ path_and_query url ++ [10%N]
            ++ netloc url ++ lit ";" ++ ts ++ lit ";" ++ hash) = Ok sig
    /\ call_headers call !! lit "Authorization"
       = Some (lit "HMAC Client=" ++ client self
                 ++ lit "&SignedHeaders=host;x-timestamp;x-content-sha256&Signature="
                 ++ sig).
Proof.
  intros (hs & Hhs & ->)%request_inv. cbn [call_headers call_url call_method].
  apply create_authenticated_headers_inv in Hhs
    as (url & ch & sig & Hurl & Hch & Hsig & ->). cbv zeta.
  exists url, (Py.str (Py.int now)), ch, sig.
  rewrite <- generate_authorization_header_default.
  destruct (Py.truthy_opt (request_content json_data));
    (split_and!;
     [exact Hurl | lookup_header; reflexivity .. | exact Hsig
     | lookup_header; reflexivity]).
Qed.

(** X19. With [None] or with an empty dictionary as payload, [request]
    sends no body: no data, no [Content-Type], the empty-content hash and
    exactly the four signing headers. *)
Theorem request_without_payload
    (self : t) (now : Q) (m p : pystr)
    (json_data : option (list (pystr * json.value))) (call : SessionCall) :
  truthy_dict json_data = false ->
  request self now m p json_data = Ok call ->
  call_data call = None
  /\ call_headers call !! lit "Content-Type" = None
  /\ call_headers call !! lit "x-content-sha256" = Some EMPTY_CONTENT_HASH
  /\ dom (call_headers call)
     = {[lit "Host"; lit "x-timestamp"; lit "x-content-sha256";
         lit "Authorization"]}.
Proof.
  intros Hf (hs & Hhs & ->)%request_inv. cbn [call_headers call_data].
  unfold request_content in *. rewrite Hf in *.
  apply create_authenticated_headers_inv in Hhs
    as (url & ch & sig & _ & Hch & _ & ->). cbv zeta. cbn [Py.truthy_opt].
  injection Hch as <-. split_and!.
  - reflexivity.
  - lookup_header. reflexivity.
  - lookup_header. reflexivity.
  - rewrite !dom_insert_L, dom_empty_L.
    unfold TIME_STAMP_HEADER_NAME, CONTENT_HASH_HEADER_NAME. set_solver.
Qed.



End Requests.

Lemma digits_uint d : forallb is_digit (lit (NilEmpty.string_of_uint d)) = true.
Proof. induction d; simpl; auto. Qed.

Lemma value_uint_acc d (acc : positive) :
  fold_left (fun acc c => 10 * acc + (Z.of_N c - 0x30))
    (lit (NilEmpty.string_of_uint d)) (Z.pos acc)
  = Z.pos (Pos.of_uint_acc d acc).
Proof.
  revert acc. induction d; intros acc; simpl; [reflexivity | ..];
    match goal with
    | |- fold_left _ _ ?z = Z.pos (Pos.of_uint_acc _ ?q) =>
        replace z with (Z.pos q) by lia
    end; apply IHd.
Qed.

Lemma value_uint d :
  fold_left (fun acc c => 10 * acc + (Z.of_N c - 0x30))
    (lit (NilEmpty.string_of_uint d)) 0
  = Z.of_N (Pos.of_uint d).
Proof.
  induction d; simpl; [reflexivity | exact IHd | ..];
    match goal with
    | |- fold_left _ _ ?z = Z.pos (Pos.of_uint_acc _ ?q) =>
        change z with (Z.pos q)
    end; apply value_uint_acc.
Qed.

Lemma str_nonneg n :
  0 <= n -> forallb is_digit (Py.str n) = true /\ decimal_value (Py.str n) = n.
Proof.
  intros Hn. unfold Py.str, decimal_value.
  destruct n as [|p|p]; [split; reflexivity | | lia].
  cbn [Z.to_int NilZero.string_of_int].
  assert (Hs : NilZero.string_of_uint (Pos.to_uint p)
               = NilEmpty.string_of_uint (Pos.to_uint p)).
  { unfold NilZero.string_of_uint. destruct (Pos.to_uint p) eqn:Hp; try reflexivity.
    pose proof (DecimalPos.Unsigned.of_to p) as Hof. rewrite Hp in Hof.
    discriminate Hof. }
  rewrite Hs. split; [apply digits_uint|].
  rewrite value_uint, DecimalPos.Unsigned.of_to. reflexivity.
Qed.

Lemma int_floor (x : Q) :
  0 <= Qnum x ->
  (inject_Z (Py.int x) <= x)%Q /\ (x < inject_Z (Py.int x + 1))%Q.
Proof.
  intros Hx. unfold Py.int, Qle, Qlt, inject_Z. cbn [Qnum Qden].
  rewrite Z.quot_div_nonneg by lia.
  pose proof (Z.mul_div_le (Qnum x) (Z.pos (Qden x)) ltac:(lia)).
  pose proof (Z.mul_succ_div_gt (Qnum x) (Z.pos (Qden x)) ltac:(lia)).
  lia.
Qed.

Lemma utf8_encode_app s1 s2 :
  Py.utf8_encode (s1 ++ s2)
  = (b1 ← Py.utf8_encode s1; b2 ← Py.utf8_encode s2; Ok (b1 ++ b2)).
Proof.
  induction s1 as [|c s1 IH]; simpl.
  - destruct (Py.utf8_encode s2); reflexivity.
  - destruct (Py.utf8_encode_cp c) as [b|]; simpl; [|reflexivity].
    rewrite IH. destruct (Py.utf8_encode s1) as [b1|]; simpl; [|reflexivity].
    destruct (Py.utf8_encode s2) as [b2|]; simpl; [|reflexivity].
    rewrite app_assoc. reflexivity.
Qed.

Lemma block_key_zero key :
  (length key < HMAC.block_size)%nat ->
  HMAC.block_key (key ++ [x00]) = HMAC.block_key key.
Proof.
  unfold HMAC.block_key, HMAC.block_size. intros Hlen.
  rewrite length_app. cbn [length].
  destruct (Nat.ltb_spec 64 (length key + 1)); [lia|].
  destruct (Nat.ltb_spec 64 (length key)); [lia|].
  rewrite length_app. cbn [length].
  replace (64 - length key)%nat with (S (64 - (length key + 1))) by lia.
  rewrite <- app_assoc. reflexivity.
Qed.

Section Timestamp.

Context {rt : Runtime}.

(** X22. A secret shorter than the 64-octet block of HMAC-SHA256 and the
    same secret followed by a NUL character give the same signatures. *)
Theorem secret_trailing_nul_ignored
    (cid cid' k u u' : pystr) (self self' : t) (s : pystr) :
  __init__ cid k u = Ok self ->
  __init__ cid' (k ++ [0%N]) u' = Ok self' ->
  (length (secret self) < 64)%nat ->
  generate_signature self' s = generate_signature self s.
Proof.
  unfold __init__. rewrite utf8_encode_app.
  destruct (Py.utf8_encode k) as [key|]; simpl; [|discriminate].
  intros [= <-] [= <-]. cbn [secret]. intros Hlen.
  rewrite !generate_signature_eq. cbn [secret].
  change (byte_of_N 0) with x00.
  unfold HMAC.digest. rewrite (block_key_zero key Hlen). reflexivity.
Qed.

(** X23. For a clock at or after the epoch, [x-timestamp] is a string of
    decimal digits only, and the number it denotes is the clock reading
    rounded down to a whole second. *)
Theorem timestamp_is_whole_seconds
    (self : t) (now : Q) (m p : pystr) (content : option pystr)
    (headers : gmap pystr pystr) :
  0 <= Qnum now ->
  create_authenticated_headers self now m p content = Ok headers ->
  exists ts,
    headers !! lit "x-timestamp" = Some ts
    /\ forallb is_digit ts = true
    /\ (inject_Z (decimal_value ts) <= now)%Q
    /\ (now < inject_Z (decimal_value ts + 1))%Q.
Proof.
  intros Hnow (url & ch & sig & _ & _ & _ & ->)%create_authenticated_headers_inv.
  assert (Hint : 0 <= Py.int now).
  { unfold Py.int. apply Z.quot_pos; lia. }
  destruct (str_nonneg _ Hint) as [Hd Hv]. destruct (int_floor now Hnow) as [Hlo Hhi].
  exists (Py.str (Py.int now)). rewrite Hv. cbv zeta.
  destruct (Py.truthy_opt content); (split; [lookup_header; reflexivity | auto]).
Qed.


End Timestamp.

(** ** The further properties at concrete requests *)

(** Runs a call that returns and names its result. *)
Ltac run_returning :=
  match goal with
  | |- exists x, ?m = Ok x /\ _ =>
      let H := fresh "Hrun" in
      destruct (returns_ok m) as [x H]; [vm_compute; reflexivity|];
      exists x; split; [exact H|]
  end.

(** The same, with names for the result and the equation. *)
Ltac run_as x H :=
  match goal with
  | |- exists _, ?m = Ok _ /\ _ =>
      destruct (returns_ok m) as [x H]; [vm_compute; reflexivity|];
      exists x; split; [exact H|]
  end.

Example json_dumps_samples :
  json.dumps (json.Dict [(lit "test", json.Str (lit "data"))])
  = qlit "{'test': 'data'}"
  /\ json.dumps (json.Dict
       [(lit "a", json.List [json.Int 1; json.Null; json.Bool true]);
        (lit "b", json.Dict []);
        (lit "n", json.Int (-42))])
     = qlit "{'a': [1, null, true], 'b': {}, 'n': -42}"
  /\ json.dumps (json.Str [0xE9; 0x0A; 0x7F; 0x1F600; 0x22; 0x5C; 0xD800]%N)
     = qlit "'\u00e9\n\u007f\ud83d\ude00\'\\\ud800'".
Proof. repeat split; reflexivity. Qed.

Lemma init_strips_trailing_slashes_witness :
  exists self,
    __init__ (lit "test") (lit "secret") (lit "https://api.example.com//")
    = Ok self
    /\ ((exists n, lit "https://api.example.com//"
                   = base_url self ++ repeat 0x2F%N n)
        /\ forall s, base_url self <> s ++ lit "/").
Proof.
  run_returning.
  exact (init_strips_trailing_slashes _ _ _ _ Hrun).
Defined.

Lemma init_verify_off_iff_local_witness :
  exists self,
    __init__ (lit "SampleClient") (lit "secret") (lit "https://localhost:7134")
    = Ok self
    /\ (session_verify self = false
        <-> (exists before after,
               lit "https://localhost:7134" = before ++ lit "localhost" ++ after)
            \/ (exists before after,
                  lit "https://localhost:7134" = before ++ lit "127.0.0.1" ++ after)).
Proof.
  run_returning.
  exact (init_verify_off_iff_local _ _ _ _ Hrun).
Defined.

Lemma string_to_sign_method_case_witness :
  forallb (fun c => (c <? 0x80)%N) (lit "get") = true
  /\ create_string_to_sign (rt := reference_runtime) test_client
       (Py.upper (rt := reference_runtime) (lit "get")) (lit "/api/test")
       [lit "example.com"; lit "1234567890"; lit "abc123"]
     = create_string_to_sign (rt := reference_runtime) test_client
         (lit "get") (lit "/api/test")
         [lit "example.com"; lit "1234567890"; lit "abc123"].
Proof.
  split; [reflexivity|].
  apply (string_to_sign_method_case (rt := reference_runtime)). reflexivity.
Defined.

Lemma string_to_sign_injective_witness :
  Py.contains [10%N] (Py.upper (rt := reference_runtime) (lit "get")) = false
  /\ Py.contains [10%N] (Py.upper (rt := reference_runtime) (lit "GET")) = false
  /\ Py.contains [10%N] (lit "/api/test") = false
  /\ forallb (fun h => negb (Py.contains (lit ";") h))
       [lit "example.com"; lit "1234567890"; lit "abc123"] = true
  /\ (0 < length [lit "example.com"; lit "1234567890"; lit "abc123"])%nat
  /\ create_string_to_sign (rt := reference_runtime) test_client
       (lit "get") (lit "/api/test")
       [lit "example.com"; lit "1234567890"; lit "abc123"]
     = create_string_to_sign (rt := reference_runtime) no_verify_client
         (lit "GET") (lit "/api/test")
         [lit "example.com"; lit "1234567890"; lit "abc123"]
  /\ (Py.upper (rt := reference_runtime) (lit "get")
      = Py.upper (rt := reference_runtime) (lit "GET")
      /\ lit "/api/test" = lit "/api/test"
      /\ [lit "example.com"; lit "1234567890"; lit "abc123"]
         = [lit "example.com"; lit "1234567890"; lit "abc123"]).
Proof.
  do 4 (split; [reflexivity|]). split; [simpl; lia|]. split; [reflexivity|].
  apply (string_to_sign_injective (rt := reference_runtime)
           test_client no_verify_client);
    first [reflexivity | simpl; lia].
Defined.

Lemma authorization_header_injective_witness :
  Py.contains (lit "&") (client test_client) = false
  /\ forallb (fun h => negb (Py.contains (lit "&") h || Py.contains (lit ";") h))
       DEFAULT_SIGNED_HEADERS = true
  /\ (0 < length DEFAULT_SIGNED_HEADERS)%nat
  /\ generate_authorization_header test_client DEFAULT_SIGNED_HEADERS (lit "abc=")
     = generate_authorization_header no_verify_client DEFAULT_SIGNED_HEADERS
         (lit "abc=")
  /\ (client test_client = client no_verify_client
      /\ DEFAULT_SIGNED_HEADERS = DEFAULT_SIGNED_HEADERS
      /\ lit "abc=" = lit "abc=").
Proof.
  do 2 (split; [reflexivity|]). split; [simpl; lia|]. split; [reflexivity|].
  apply (authorization_header_injective test_client no_verify_client);
    first [reflexivity | simpl; lia].
Defined.

Lemma authorization_header_not_escaped_witness :
  client forged_client = client test_client ++ lit "&SignedHeaders=" ++ lit "host"
  /\ generate_authorization_header forged_client [lit "x-timestamp"] (lit "abc=")
     = generate_authorization_header test_client
         [lit "host" ++ lit "&SignedHeaders=" ++ lit "x-timestamp"] (lit "abc=").
Proof.
  split; [reflexivity|].
  apply (authorization_header_not_escaped test_client forged_client). reflexivity.
Defined.

Lemma signature_shape_witness :
  exists sig,
    generate_signature test_client (lit "GET") = Ok sig
    /\ ((exists body,
           sig = body ++ lit "=" /\ length body = 43%nat
           /\ Forall (fun c => c ∈ base64_alphabet) body)
        /\ Py.contains (lit "&") sig = false
        /\ Py.contains (lit ";") sig = false).
Proof.
  run_returning.
  exact (signature_shape _ _ _ Hrun).
Defined.

Lemma content_hash_shape_witness :
  exists h,
    calculate_content_hash test_client (Some (lit "abc")) = Ok h
    /\ ((exists body,
           h = body ++ lit "=" /\ length body = 43%nat
           /\ Forall (fun c => c ∈ base64_alphabet) body)
        /\ Py.contains (lit ";") h = false
        /\ Py.contains [10%N] h = false).
Proof.
  run_returning.
  exact (content_hash_shape _ _ _ Hrun).
Defined.

Lemma trailing_slash_insensitive_witness :
  exists self1,
    __init__ (lit "TestClient") (lit "test-secret") (lit "https://api.example.com")
    = Ok self1
    /\ exists self2,
         __init__ (lit "TestClient") (lit "test-secret")
           (lit "https://api.example.com" ++ repeat 0x2F%N 2) = Ok self2
         /\ create_authenticated_headers (rt := reference_runtime) self1
              (1234567890 # 1) (lit "GET") (lit "/api/test") None
            = create_authenticated_headers (rt := reference_runtime) self2
                (1234567890 # 1) (lit "GET") (lit "/api/test") None.
Proof.
  run_returning. rename Hrun into Hinit1. run_returning.
  exact (trailing_slash_insensitive (rt := reference_runtime)
           _ _ _ _ _ _ _ _ _ _ Hinit1 Hrun).
Defined.

Lemma headers_exceptions_witness :
  create_authenticated_headers (rt := reference_runtime) test_client
    (1234567890 # 1) (lit "POST") (lit "/api/test") (Some [0xDC00%N])
  = Raise UnicodeEncodeError
  /\ (urlparse (Runtime := reference_runtime)
        (base_url test_client ++ lit "/api/test") = Raise UnicodeEncodeError
      \/ UnicodeEncodeError = UnicodeEncodeError).
Proof.
  split; [vm_compute; reflexivity|].
  apply (headers_exceptions (rt := reference_runtime) test_client
           (1234567890 # 1) (lit "POST") (lit "/api/test") (Some [0xDC00%N])).
  vm_compute. reflexivity.
Defined.

Lemma headers_depend_on_host_path_query_witness :
  urlparse (Runtime := reference_runtime)
    (base_url test_client ++ lit "/api/test?page=2") = Ok test_url
  /\ urlparse (Runtime := reference_runtime)
       (base_url test_client ++ lit "/api/test;v=1?page=2#top")
     = Ok test_url_params
  /\ netloc test_url = netloc test_url_params
  /\ path test_url = path test_url_params
  /\ query test_url = query test_url_params
  /\ create_authenticated_headers (rt := reference_runtime) test_client
       (1234567890 # 1) (lit "GET") (lit "/api/test?page=2") None
     = create_authenticated_headers (rt := reference_runtime) test_client
         (1234567890 # 1) (lit "GET") (lit "/api/test;v=1?page=2#top") None.
Proof.
  do 5 (split; [reflexivity|]).
  apply (headers_depend_on_host_path_query (rt := reference_runtime) test_client
           (1234567890 # 1) (lit "GET") (lit "/api/test?page=2")
           (lit "/api/test;v=1?page=2#top") None test_url test_url_params);
    reflexivity.
Defined.

Lemma request_content_type_iff_body_witness :
  exists call,
    request (rt := reference_runtime) test_client (1234567890 # 1)
      (lit "patch") (lit "/users/7") (Some test_payload) = Ok call
    /\ call_headers call !! lit "Content-Type"
       = (fun _ => lit "application/json") <$> call_data call.
Proof.
  run_returning.
  exact (request_content_type_iff_body (rt := reference_runtime) _ _ _ _ _ _ Hrun).
Defined.

Lemma request_hash_matches_body_witness :
  exists call,
    request (rt := reference_runtime) test_client (1234567890 # 1)
      (lit "POST") (lit "/users") (Some test_payload) = Ok call
    /\ exists body,
         Py.utf8_encode (default [] (call_data call)) = Ok body
         /\ call_headers call !! lit "x-content-sha256"
            = Some (Py.ascii_str (Base64.b64encode (SHA256.digest body))).
Proof.
  run_returning.
  exact (request_hash_matches_body (rt := reference_runtime) _ _ _ _ _ _ Hrun).
Defined.

Lemma request_signature_covers_call_witness :
  exists call,
    request (rt := reference_runtime) test_client (1234567890 # 1)
      (lit "get") (lit "/api/test?page=2") None = Ok call
    /\ exists (url : ParseResult) (ts hash sig : pystr),
         urlparse (Runtime := reference_runtime) (call_url call) = Ok url
         /\ call_headers call !! lit "Host" = Some (netloc url)
         /\ call_headers call !! lit "x-timestamp" = Some ts
         /\ call_headers call !! lit "x-content-sha256" = Some hash
         /\ generate_signature test_client
              (call_method call ++ [10%N] ++ path_and_query url ++ [10%N]
                 ++ netloc url ++ lit ";" ++ ts ++ lit ";" ++ hash) = Ok sig
         /\ call_headers call !! lit "Authorization"
            = Some (lit "HMAC Client=" ++ client test_client
                      ++ lit "&SignedHeaders=host;x-timestamp;x-content-sha256&Signature="
                      ++ sig).
Proof.
  run_returning.
  exact (request_signature_covers_call (rt := reference_runtime) _ _ _ _ _ _ Hrun).
Defined.

Lemma post_unfold {rt : Runtime} self now p d :
  post self now p d = request self now (lit "POST") p (Some d).
Proof. reflexivity. Qed.


Lemma request_without_payload_witness :
  truthy_dict (Some []) = false
  /\ exists call,
       post (rt := reference_runtime) test_client (1234567890 # 1)
         (lit "/users") [] = Ok call
       /\ (call_data call = None
           /\ call_headers call !! lit "Content-Type" = None
           /\ call_headers call !! lit "x-content-sha256" = Some EMPTY_CONTENT_HASH
           /\ dom (call_headers call)
              = {[lit "Host"; lit "x-timestamp"; lit "x-content-sha256";
                  lit "Authorization"]}).
Proof.
  split; [reflexivity|]. run_as call Hrun. rewrite post_unfold in Hrun.
  exact (request_without_payload (rt := reference_runtime) test_client
           (1234567890 # 1) (lit "POST") (lit "/users") (Some []) call
           eq_refl Hrun).
Defined.




Lemma secret_trailing_nul_ignored_witness :
  exists self,
    __init__ (lit "TestClient") (lit "test-secret") (lit "https://api.example.com")
    = Ok self
    /\ exists self',
         __init__ (lit "TestClient") (lit "test-secret" ++ [0%N])
           (lit "https://api.example.com") = Ok self'
         /\ (length (secret self) < 64)%nat
         /\ generate_signature self' (lit "GET") = generate_signature self (lit "GET").
Proof.
  exists test_client. split; [vm_compute; reflexivity|].
  run_as self' Hinit'.
  split; [vm_compute; lia|].
  refine (secret_trailing_nul_ignored (lit "TestClient") (lit "TestClient")
            (lit "test-secret") (lit "https://api.example.com")
            (lit "https://api.example.com") test_client self' (lit "GET")
            _ Hinit' _).
  - vm_compute. reflexivity.
  - vm_compute. lia.
Defined.

Lemma timestamp_is_whole_seconds_witness :
  0 <= Qnum (12345678909 # 10)
  /\ exists headers,
       create_authenticated_headers (rt := reference_runtime) test_client
         (12345678909 # 10) (lit "GET") (lit "/api/test") None = Ok headers
       /\ exists ts,
            headers !! lit "x-timestamp" = Some ts
            /\ forallb is_digit ts = true
            /\ (inject_Z (decimal_value ts) <= 12345678909 # 10)%Q
            /\ (12345678909 # 10 < inject_Z (decimal_value ts + 1))%Q.
Proof.
  split; [simpl; lia|]. run_as headers Hrun.
  refine (timestamp_is_whole_seconds (rt := reference_runtime) test_client
            (12345678909 # 10) (lit "GET") (lit "/api/test") None headers
            _ Hrun).
  simpl. lia.
Defined.
